(** * Split the G: the server action and the live-detection loop of
    [app/routes/home.tsx]

    Definitions:

    - Module [Js]: the fragment of JavaScript values that the action
      touches (parsed JSON, property reads, optional chaining,
      truthiness, thrown values).
    - Module [Action]: the [action] function.  The services it talks to
      (the inference API, [uploadImage], [getLocationData], the
      database client) are a [World] record of answers; every call is
      recorded in a trace of events, in call order.  Console logging is
      left out.
    - Module [Detect]: the [Home] component's state, the detection
      effect with its interval, and [detectFrame], as a step function
      over the events of the page.  Each call of [detectFrame] runs to
      its end and is rendered before the next event.
    - Module [Overlap]: the same page with calls of [detectFrame] that
      wait for their inference while the interval fires again or is
      cleared.
    - Modules [Sample], [Claims], [Scenario]: concrete worlds and runs,
      and the predicates the statements use.
    - Module [Upload]: [handleFileChange] of the home page.
    - Module [Score]: [getScoreMessage] of the score page.
    - Module [More]: further predicates and samples.

    Proofs: Modules [ActionFacts] and [ActionMore] for the action,
    Modules [DetectFacts], [DetectMore] and [OverlapFacts] for the loop
    and the captured image, Module [ScoreFacts] for the score page. *)

From Stdlib Require Import String Ascii List Bool Arith ZArith QArith Lia.
From Stdlib Require Import DecimalString.
Import ListNotations.

Local Close Scope Q_scope.
Local Open Scope string_scope.

(* ================================================================== *)
(** ** JavaScript values *)

Module Js.

(** A value as [response.json()] produces it, plus [undefined], which
    property reads produce.  An object is the list of its own
    properties; the first binding of a key is the one that counts. *)
#[local] Unset Elimination Schemes.
Inductive value : Type :=
| VUndefined
| VNull
| VBool (b : bool)
| VNum (q : Q)
| VStr (s : string)
| VArr (items : list value)
| VObj (fields : list (string * value)).
#[local] Set Elimination Schemes.

(** What a [throw] carries: an instance of [Error] ([new Error(m)], a
    [TypeError] of the engine, a [SyntaxError] of [JSON.parse]) with
    its [message], or any other value. *)
Inductive thrown : Type :=
| IsError (message : string)
| NotError (v : value).

Inductive result (A : Type) : Type :=
| Ok (a : A)
| Throw (e : thrown).
Arguments Ok {A} a.
Arguments Throw {A} e.

Definition TypeError (message : string) : thrown := IsError message.

(** [!!v] *)
Definition truthy (v : value) : bool :=
  match v with
  | VUndefined | VNull => false
  | VBool b => b
  | VNum q => negb (Qeq_bool q 0%Q)
  | VStr s => negb (s =? "")
  | VArr _ | VObj _ => true
  end.

Definition nullish (v : value) : bool :=
  match v with
  | VUndefined | VNull => true
  | _ => false
  end.

Fixpoint lookup (k : string) (fields : list (string * value)) : value :=
  match fields with
  | [] => VUndefined
  | (k', v) :: rest => if k' =? k then v else lookup k rest
  end.

Definition type_name (v : value) : string :=
  match v with
  | VNull => "null"
  | _ => "undefined"
  end.

(** [v.name] and [v["name"]], for the names the route reads:
    [outputs], [pint results], [predictions], [split image],
    [pint image], [value], [class], [city], [region], [country],
    [country_code].  None of them is inherited from a prototype and
    none is an array index, so only an object can hold one. *)
Definition get (v : value) (name : string) : result value :=
  match v with
  | VUndefined | VNull =>
      Throw (TypeError ("Cannot read properties of " ++ type_name v
                        ++ " (reading '" ++ name ++ "')"))
  | VObj fields => Ok (lookup name fields)
  | _ => Ok VUndefined
  end.

(** [v[0]] *)
Definition get0 (v : value) : result value :=
  match v with
  | VUndefined | VNull =>
      Throw (TypeError ("Cannot read properties of " ++ type_name v
                        ++ " (reading '0')"))
  | VArr items => Ok (nth 0 items VUndefined)
  | VStr s => Ok (match s with
                  | EmptyString => VUndefined
                  | String c _ => VStr (String c EmptyString)
                  end)
  | VObj fields => Ok (lookup "0" fields)
  | _ => Ok VUndefined
  end.

(** [v?.name] and [v?.[0]]: [undefined] on a nullish [v], the read
    otherwise (which then cannot throw). *)
Definition opt_get (v : value) (name : string) : value :=
  if nullish v then VUndefined
  else match get v name with Ok x => x | Throw _ => VUndefined end.

Definition opt_get0 (v : value) : value :=
  if nullish v then VUndefined
  else match get0 v with Ok x => x | Throw _ => VUndefined end.

(** [a || b] *)
Definition or_else (a b : value) : value := if truthy a then a else b.

(** [v === "s"] *)
Definition strict_eq_str (v : value) (s : string) : bool :=
  match v with
  | VStr s' => s' =? s
  | _ => false
  end.

(** [items.some(f)] for a callback that may throw: stops at the first
    element on which [f] is true. *)
Fixpoint some (f : value -> result bool) (items : list value) : result bool :=
  match items with
  | [] => Ok false
  | x :: rest =>
      match f x with
      | Throw e => Throw e
      | Ok true => Ok true
      | Ok false => some f rest
      end
  end.

(** [String(n)] for an integer [n] *)
Definition string_of_Z (z : Z) : string := NilZero.string_of_int (Z.to_int z).

End Js.

(* ================================================================== *)
(** ** The server action *)

Module Action.
Import Js.

(** *** Strings of the request *)

Definition lower_ascii (c : ascii) : ascii :=
  let n := nat_of_ascii c in
  if ((65 <=? n) && (n <=? 90))%nat then ascii_of_nat (n + 32) else c.

Fixpoint lower (s : string) : string :=
  match s with
  | EmptyString => EmptyString
  | String c rest => String (lower_ascii c) (lower rest)
  end.

(** [s.split(",")[0]]: the text before the first comma. *)
Fixpoint before_comma (s : string) : string :=
  match s with
  | EmptyString => EmptyString
  | String c rest =>
      if Ascii.eqb c "," then EmptyString else String c (before_comma rest)
  end.

(** White space of [String.prototype.trim] among the bytes a header
    value can hold: tab, line feed, vertical tab, form feed, carriage
    return, space, no-break space. *)
Definition is_space (c : ascii) : bool :=
  let n := nat_of_ascii c in
  (((9 <=? n) && (n <=? 13)) || (n =? 32) || (n =? 160))%nat.

Fixpoint trim_start (s : string) : string :=
  match s with
  | EmptyString => EmptyString
  | String c rest => if is_space c then trim_start rest else s
  end.

(** Drops trailing white space: a character stays when it is not white
    space or when something stays after it. *)
Fixpoint trim_end (s : string) : string :=
  match s with
  | EmptyString => EmptyString
  | String c rest =>
      match trim_end rest with
      | EmptyString => if is_space c then EmptyString else String c EmptyString
      | kept => String c kept
      end
  end.

Definition trim (s : string) : string := trim_end (trim_start s).

(** *** The request *)

(** The submitted form and the request headers.  Header names are kept
    in lower case, [Headers.get] ignores case.  [image] is [None] when
    the form has no such field. *)
Record Request := {
  image : option string;
  headers : list (string * string)
}.

Fixpoint assoc (k : string) (l : list (string * string)) : option string :=
  match l with
  | [] => None
  | (k', v) :: rest => if k' =? k then Some v else assoc k rest
  end.

(** [request.headers.get(name)] *)
Definition headers_get (req : Request) (name : string) : option string :=
  assoc (lower name) (headers req).

(** [a || b] on [string | null | undefined]: the empty string is falsy. *)
Definition or_str (a b : option string) : option string :=
  match a with
  | Some s => if s =? "" then b else a
  | None => b
  end.

Definition clientIP (req : Request) : string :=
  let forwarded :=
    match headers_get req "x-forwarded-for" with
    | Some s => Some (trim (before_comma s))
    | None => None
    end in
  match
    or_str (headers_get req "Fly-Client-IP")
   (or_str (headers_get req "fly-client-ip")
   (or_str forwarded
   (or_str (headers_get req "x-real-ip")
   (or_str (headers_get req "cf-connecting-ip")
   (or_str (headers_get req "x-client-ip")
   (or_str (headers_get req "fastly-client-ip")
           (Some "unknown")))))))
  with
  | Some ip => ip
  | None => "unknown"
  end.

(** *** The services *)

(** What [fetch] resolves to: [text] and [json] are what
    [response.text()] and [response.json()] resolve to or reject
    with. *)
Record Response := {
  ok : bool;
  status : Z;
  text : result string;
  json : result value
}.

(** The object handed to [.insert(...)] *)
Record ScoreRow := {
  split_score : value;
  split_image_url : value;
  pint_image_url : value;
  username : string;
  created_at : string;
  session_id : string;
  city : value;
  region : value;
  country : value;
  country_code : value
}.

(** What [.insert(...).select().single()] resolves to.  [data] is
    [None] for [null], else the text that [score.id] renders to in a
    template literal.  [error] is [None] for a falsy [error]. *)
Record DbResponse := {
  data : option string;
  error : option thrown
}.

(** Everything outside the function: the environment, the three
    generators called once each, and the answers of the services.
    [calculateScore], [uploadImage] and [getLocationData] are imported
    from modules of [~/utils]; they are taken as they are called. *)
Record World := {
  ROBOFLOW_API_KEY : option string;
  generateBeerUsername : string;
  randomUUID : string;
  toISOString : string;
  fetch : string -> option string -> option string -> result Response;
  calculateScore : value -> result value;
  uploadImage : value -> string -> result value;
  getLocationData : string -> result value;
  insert : string -> ScoreRow -> DbResponse
}.

(** One call to a service. *)
Inductive event : Type :=
| EvFetch (url : string) (api_key image : option string)
| EvUpload (img : value) (bucket : string)
| EvLocate (ip : string)
| EvInsert (table : string) (row : ScoreRow).

(** *** Calls in order, with exceptions *)

(** A computation reads the calls made so far and returns a value or a
    thrown one, with the calls made by then. *)
Definition M (A : Type) : Type := list event -> result A * list event.

Definition ret {A} (a : A) : M A := fun tr => (Ok a, tr).

Definition throw {A} (e : thrown) : M A := fun tr => (Throw e, tr).

Definition bind {A B} (c : M A) (k : A -> M B) : M B :=
  fun tr =>
    match c tr with
    | (Ok a, tr') => k a tr'
    | (Throw e, tr') => (Throw e, tr')
    end.

Definition lift {A} (r : result A) : M A := fun tr => (r, tr).

(** Records the call, then gives the service's answer. *)
Definition call {A} (e : event) (answer : result A) : M A :=
  fun tr => (answer, (tr ++ [e])%list).

(** [try { body } catch (error) { handler }] *)
Definition try_catch {A} (body : M A) (handler : thrown -> M A) : M A :=
  fun tr =>
    match body tr with
    | (Ok a, tr') => (Ok a, tr')
    | (Throw e, tr') => handler e tr'
    end.

Notation "x <- c ;; k" := (bind c (fun x => k))
  (at level 61, c at next level, right associativity).

(** *** [action] *)

(** What the action resolves to: the [redirect(...)] response or one of
    its two object literals. *)
Inductive Outcome : Type :=
| Redirect (location : string) (set_headers : list (string * string))
| Returned (success : bool) (error message : string) (status : Z).

Definition api_url : string :=
  "https://detect.roboflow.com/infer/workflows/hunter-diminick/split-g-scoring".

(** [result.outputs?.[0]?.["pint results"]?.predictions?.predictions || []] *)
Definition pintPredictions (result : value) : Js.result value :=
  match get result "outputs" with
  | Throw e => Throw e
  | Ok outputs =>
      Ok (or_else
            (opt_get (opt_get (opt_get (opt_get0 outputs) "pint results")
                              "predictions") "predictions")
            (VArr []))
  end.

(** [(pred) => pred.class === "G"] *)
Definition is_G (pred : value) : Js.result bool :=
  match get pred "class" with
  | Throw e => Throw e
  | Ok c => Ok (strict_eq_str c "G")
  end.

(** [pintPredictions.some(...)]: only an array has the method. *)
Definition hasG (predictions : value) : Js.result bool :=
  match predictions with
  | VArr items => some is_G items
  | _ => Throw (TypeError "pintPredictions.some is not a function")
  end.

Definition no_G : Outcome :=
  Returned false "No G detected" "No G pattern detected" 400.

Definition session_cookie (sessionId : string) : string * string :=
  ("Set-Cookie",
   "split-g-session=" ++ sessionId ++ "; Path=/; Max-Age=31536000; SameSite=Lax").

(** The body of the [try] block.  [result.outputs] and
    [result.outputs[0]] are read once here and several times in the
    source; the reads have no effect. *)
Definition process (w : World) (req : Request) (name sessionId ip : string)
  : M Outcome :=
  let key := ROBOFLOW_API_KEY w in
  response <- call (EvFetch api_url key (image req))
                   (fetch w api_url key (image req)) ;;
  if negb (ok response) then
    errorText <- lift (text response) ;;
    throw (IsError ("API request failed (" ++ string_of_Z (status response)
                    ++ "): " ++ errorText))
  else
    result <- lift (json response) ;;
    predictions <- lift (pintPredictions result) ;;
    found <- lift (hasG predictions) ;;
    if negb found then ret no_G
    else
      outputs <- lift (get result "outputs") ;;
      if negb (truthy (opt_get0 outputs)) then
        throw (IsError "No outputs received from API")
      else
        out0 <- lift (get0 outputs) ;;
        splitImageData <- lift (get out0 "split image") ;;
        pintImageData <- lift (get out0 "pint image") ;;
        let splitImage := opt_get (opt_get0 splitImageData) "value" in
        let pintImage := opt_get pintImageData "value" in
        if negb (truthy splitImage) || negb (truthy pintImage) then
          throw (IsError "Missing required image data from API response")
        else
          splitScore <- lift (calculateScore w out0) ;;
          splitImageUrl <- call (EvUpload splitImage "split-images")
                                (uploadImage w splitImage "split-images") ;;
          pintImageUrl <- call (EvUpload pintImage "pint-images")
                               (uploadImage w pintImage "pint-images") ;;
          locationData <- call (EvLocate ip) (getLocationData w ip) ;;
          c <- lift (get locationData "city") ;;
          r <- lift (get locationData "region") ;;
          co <- lift (get locationData "country") ;;
          cc <- lift (get locationData "country_code") ;;
          let row := {| split_score := splitScore;
                        split_image_url := splitImageUrl;
                        pint_image_url := pintImageUrl;
                        username := name;
                        created_at := toISOString w;
                        session_id := sessionId;
                        city := c; region := r; country := co;
                        country_code := cc |} in
          answer <- call (EvInsert "scores" row) (Ok (insert w "scores" row)) ;;
          match error answer with
          | Some dbError => throw dbError
          | None =>
              match data answer with
              | None =>
                  throw (TypeError "Cannot read properties of null (reading 'id')")
              | Some id =>
                  ret (Redirect ("/score/" ++ id) [session_cookie sessionId])
              end
          end.

(** [error instanceof Error ? error.message : "Unknown error occurred"] *)
Definition errorMessage (e : thrown) : string :=
  match e with
  | IsError m => m
  | NotError _ => "Unknown error occurred"
  end.

(** The [catch] block; its logging is left out. *)
Definition failed (e : thrown) : M Outcome :=
  ret (Returned false (errorMessage e) "Failed to process image" 500).

(** The action on a request whose form data has been read, started with
    no call made: what it resolves to or rejects with, and the calls it
    made. *)
Definition action (w : World) (req : Request) : Js.result Outcome * list event :=
  try_catch
    (process w req (generateBeerUsername w) (randomUUID w) (clientIP req))
    failed [].

End Action.

(* ================================================================== *)
(** ** The live-detection loop *)

Module Detect.

Local Open Scope nat_scope.

(** *** The captured image *)

(** [\w] *)
Definition is_word (c : ascii) : bool :=
  let n := nat_of_ascii c in
  ((48 <=? n) && (n <=? 57)) || ((65 <=? n) && (n <=? 90))
  || ((97 <=? n) && (n <=? 122)) || (n =? 95).

Fixpoint drop_word (s : string) : string :=
  match s with
  | EmptyString => EmptyString
  | String c rest => if is_word c then drop_word rest else s
  end.

(** [Some rest] when [s] is [p] followed by [rest]. *)
Fixpoint strip_prefix (p s : string) : option string :=
  match p, s with
  | EmptyString, _ => Some s
  | String a p', String b s' => if Ascii.eqb a b then strip_prefix p' s' else None
  | String _ _, EmptyString => None
  end.

(** [imageData.replace(/^data:image\/\w+;base64,/, "")].  The word
    characters are taken greedily; the semicolon that must follow is not
    one, so no shorter run can match. *)
Definition base64_of (imageData : string) : string :=
  match strip_prefix "data:image/" imageData with
  | None => imageData
  | Some rest =>
      let after := drop_word rest in
      if String.length after <? String.length rest then
        match strip_prefix ";base64," after with
        | Some payload => payload
        | None => imageData
        end
      else imageData
  end.

(** *** State *)

(** One prediction of the in-browser model; only its class is read. *)
Record Prediction := { class : string }.

(** What one run of [detectFrame] meets: the predictions [infer]
    resolves to ([None] when the import, [CVImage] or [infer] throws)
    and what [canvas.toDataURL("image/jpeg")] gives for the drawn
    frame. *)
Record Frame := {
  predictions : option (list Prediction);
  imageData : string
}.

(** An interval registered with [setInterval(detectFrame, 500)]: its
    id, its period, and the values of [consecutiveDetections] and
    [modelWorkerId] that this [detectFrame] closed over. *)
Record Interval := {
  intervalId : nat;
  period : Z;
  seen_detections : nat;
  seen_worker : option string
}.

(** The [useState] cells the loop reads or writes, then what lives
    outside React: the browser's active intervals, the cleanup the
    detection effect returned last, the next interval id, and the images
    [detectFrame] submitted, oldest first.  [inferEngine] is whether the
    engine object is there.  [consecutiveDetections] only grows by one
    from zero, a natural number holds it. *)
Record Home := {
  inferEngine : bool;
  modelWorkerId : option string;
  modelLoading : bool;
  isCameraActive : bool;
  isVideoReady : bool;
  consecutiveDetections : nat;
  feedbackMessage : string;
  isProcessing : bool;
  isSubmitting : bool;
  intervals : list Interval;
  cleanup : option nat;
  next_id : nat;
  submitted : list string
}.

Definition initial : Home := {|
  inferEngine := false;
  modelWorkerId := None;
  modelLoading := false;
  isCameraActive := false;
  isVideoReady := false;
  consecutiveDetections := 0;
  feedbackMessage := "Show your pint glass";
  isProcessing := false;
  isSubmitting := false;
  intervals := [];
  cleanup := None;
  next_id := 0;
  submitted := []
|}.

Definition setInferEngine (v : bool) (s : Home) : Home :=
  Build_Home v (modelWorkerId s) (modelLoading s) (isCameraActive s)
    (isVideoReady s) (consecutiveDetections s) (feedbackMessage s)
    (isProcessing s) (isSubmitting s) (intervals s) (cleanup s) (next_id s)
    (submitted s).

Definition setModelWorkerId (v : option string) (s : Home) : Home :=
  Build_Home (inferEngine s) v (modelLoading s) (isCameraActive s)
    (isVideoReady s) (consecutiveDetections s) (feedbackMessage s)
    (isProcessing s) (isSubmitting s) (intervals s) (cleanup s) (next_id s)
    (submitted s).

Definition setModelLoading (v : bool) (s : Home) : Home :=
  Build_Home (inferEngine s) (modelWorkerId s) v (isCameraActive s)
    (isVideoReady s) (consecutiveDetections s) (feedbackMessage s)
    (isProcessing s) (isSubmitting s) (intervals s) (cleanup s) (next_id s)
    (submitted s).

Definition setIsCameraActive (v : bool) (s : Home) : Home :=
  Build_Home (inferEngine s) (modelWorkerId s) (modelLoading s) v
    (isVideoReady s) (consecutiveDetections s) (feedbackMessage s)
    (isProcessing s) (isSubmitting s) (intervals s) (cleanup s) (next_id s)
    (submitted s).

Definition setIsVideoReady (v : bool) (s : Home) : Home :=
  Build_Home (inferEngine s) (modelWorkerId s) (modelLoading s)
    (isCameraActive s) v (consecutiveDetections s) (feedbackMessage s)
    (isProcessing s) (isSubmitting s) (intervals s) (cleanup s) (next_id s)
    (submitted s).

Definition setConsecutiveDetections (f : nat -> nat) (s : Home) : Home :=
  Build_Home (inferEngine s) (modelWorkerId s) (modelLoading s)
    (isCameraActive s) (isVideoReady s) (f (consecutiveDetections s))
    (feedbackMessage s) (isProcessing s) (isSubmitting s) (intervals s)
    (cleanup s) (next_id s) (submitted s).

Definition setFeedbackMessage (v : string) (s : Home) : Home :=
  Build_Home (inferEngine s) (modelWorkerId s) (modelLoading s)
    (isCameraActive s) (isVideoReady s) (consecutiveDetections s) v
    (isProcessing s) (isSubmitting s) (intervals s) (cleanup s) (next_id s)
    (submitted s).

Definition setIsProcessing (v : bool) (s : Home) : Home :=
  Build_Home (inferEngine s) (modelWorkerId s) (modelLoading s)
    (isCameraActive s) (isVideoReady s) (consecutiveDetections s)
    (feedbackMessage s) v (isSubmitting s) (intervals s) (cleanup s)
    (next_id s) (submitted s).

Definition setIsSubmitting (v : bool) (s : Home) : Home :=
  Build_Home (inferEngine s) (modelWorkerId s) (modelLoading s)
    (isCameraActive s) (isVideoReady s) (consecutiveDetections s)
    (feedbackMessage s) (isProcessing s) v (intervals s) (cleanup s)
    (next_id s) (submitted s).

(** The browser side: the interval table, the stored cleanup, the id
    counter. *)
Definition with_timers (l : list Interval) (c : option nat) (n : nat)
  (s : Home) : Home :=
  Build_Home (inferEngine s) (modelWorkerId s) (modelLoading s)
    (isCameraActive s) (isVideoReady s) (consecutiveDetections s)
    (feedbackMessage s) (isProcessing s) (isSubmitting s) l c n (submitted s).

(** [submit(formData, ...)] with the image as the form's field. *)
Definition submit (base64Image : string) (s : Home) : Home :=
  Build_Home (inferEngine s) (modelWorkerId s) (modelLoading s)
    (isCameraActive s) (isVideoReady s) (consecutiveDetections s)
    (feedbackMessage s) (isProcessing s) (isSubmitting s) (intervals s)
    (cleanup s) (next_id s) (submitted s ++ [base64Image])%list.

(** *** Rendering *)

(** [const isClient = typeof window !== "undefined"], in the browser *)
Definition isClient : bool := true.

(** [!!modelWorkerId]: the empty string is falsy. *)
Definition worker_truthy (id : option string) : bool :=
  match id with
  | Some w => negb (String.eqb w "")
  | None => false
  end.

(** The [<video>] and the [<canvas>] are rendered, and [videoRef.current]
    and [canvasRef.current] set, when the main view is shown
    ([isSubmitting] is false) with the camera active. *)
Definition video_mounted (s : Home) : bool :=
  negb (isSubmitting s) && isCameraActive s.

Definition canvas_mounted (s : Home) : bool :=
  negb (isSubmitting s) && isCameraActive s.

(** The Start Analysis button is rendered when the main view is shown
    with the camera inactive. *)
Definition start_button_shown (s : Home) : bool :=
  negb (isSubmitting s) && negb (isCameraActive s).

(** *** [detectFrame] *)

Definition has_class (name : string) (preds : list Prediction) : bool :=
  existsb (fun pred => String.eqb (class pred) name) preds.

(** One call of the [detectFrame] of interval [iv], run to its end on
    frame [f]: the state updates it queues and the form it submits.
    [consecutiveDetections] in the body is the value [iv] closed over;
    the updater of line 273 works on the current state.  The refs are
    those of the last render, [s], whatever the call has queued. *)
Definition detectFrame (iv : Interval) (f : Frame) (s : Home) : Home :=
  if negb (worker_truthy (seen_worker iv)) || negb (video_mounted s) then s
  else
    match predictions f with
    | None => s
    | Some preds =>
        let hasGlass := has_class "glass" preds in
        let hasG := has_class "G" preds in
        if hasGlass && hasG then
          let s1 := setConsecutiveDetections (fun prev => prev + 1) s in
          if 4 <=? seen_detections iv then
            let s2 := setFeedbackMessage "Perfect! Processing your pour..." s1 in
            let s3 := setIsProcessing true s2 in
            let s4 := setIsSubmitting true s3 in
            if video_mounted s && canvas_mounted s then
              let base64Image := base64_of (imageData f) in
              let s5 := setIsCameraActive false s4 in
              submit base64Image s5
            else s4
          else if 1 <=? seen_detections iv then
            setFeedbackMessage "Hold still..." s1
          else
            setFeedbackMessage "Keep the glass centered..." s1
        else
          let s1 := setConsecutiveDetections (fun _ => 0) s in
          if negb hasGlass then setFeedbackMessage "Show your pint glass" s1
          else if negb hasG then
            setFeedbackMessage "Make sure the G pattern is visible" s1
          else s1
    end.

(** *** Effects *)

(** [setInterval(detectFrame, 500)]: a fresh id, the closure as of this
    render. *)
Definition setInterval (s : Home) : Home :=
  let iv := {| intervalId := next_id s;
               period := 500;
               seen_detections := consecutiveDetections s;
               seen_worker := modelWorkerId s |} in
  with_timers (intervals s ++ [iv]) (Some (next_id s)) (S (next_id s)) s.

Definition clearInterval (id : nat) (l : list Interval) : list Interval :=
  filter (fun iv => negb (intervalId iv =? id)) l.

(** The cleanup the detection effect returned last, if any:
    [() => clearInterval(intervalId)]. *)
Definition run_cleanup (s : Home) : Home :=
  match cleanup s with
  | Some id => with_timers (clearInterval id (intervals s)) None (next_id s) s
  | None => s
  end.

(** The guard at the head of the detection effect *)
Definition loop_ready (s : Home) : bool :=
  isClient && inferEngine s && worker_truthy (modelWorkerId s)
  && isCameraActive s && isVideoReady s.

(** The body of the detection effect *)
Definition detection_effect (s : Home) : Home :=
  if negb (loop_ready s) then s else setInterval s.

Definition option_eqb (a b : option string) : bool :=
  match a, b with
  | Some x, Some y => String.eqb x y
  | None, None => true
  | _, _ => false
  end.

(** The dependency array of the detection effect, without [submit],
    which does not change: the effect runs again when this is false. *)
Definition same_deps (old new : Home) : bool :=
  option_eqb (modelWorkerId old) (modelWorkerId new)
  && Bool.eqb (isCameraActive old) (isCameraActive new)
  && Bool.eqb (inferEngine old) (inferEngine new)
  && Bool.eqb (isVideoReady old) (isVideoReady new)
  && (consecutiveDetections old =? consecutiveDetections new).

(** The effect that starts the model worker: once the engine is there
    it sets [modelLoading]; the worker's id arrives later. *)
Definition model_effect (s : Home) : Home :=
  if negb (inferEngine s) || modelLoading s then s
  else setModelLoading true s.

(** React renders the queued state [new] after the render of [old] and
    runs the effects whose dependencies changed, cleanup first. *)
Definition commit (old new : Home) : Home :=
  let new := model_effect new in
  if same_deps old new then new
  else detection_effect (run_cleanup new).

(** *** Events of the page *)

Inductive Event : Type :=
| EngineLoaded                    (* the import resolved: setInferEngine *)
| WorkerStarted (id : string)     (* startWorker resolved: setModelWorkerId *)
| StartAnalysis                   (* click on the Start Analysis button *)
| CameraError                     (* getUserMedia rejected, or the video's onError *)
| LoadedMetadata                  (* the video's onLoadedMetadata *)
| ActionData                      (* the action returned an object *)
| Tick (id : nat) (f : Frame).    (* interval [id] fires and its detectFrame runs *)

Definition find_interval (id : nat) (l : list Interval) : option Interval :=
  find (fun iv => intervalId iv =? id) l.

(** The handler of an event: the updates it queues.  An event that
    cannot happen in [s] (a click on a button that is not rendered, a
    tick of an interval that is not active) changes nothing. *)
Definition handle (s : Home) (e : Event) : Home :=
  match e with
  | EngineLoaded => if inferEngine s then s else setInferEngine true s
  | WorkerStarted id =>
      match modelWorkerId s with
      | None => if modelLoading s then setModelWorkerId (Some id) s else s
      | Some _ => s
      end
  | StartAnalysis =>
      if start_button_shown s then setIsCameraActive true s else s
  | CameraError => setIsCameraActive false s
  | LoadedMetadata => if video_mounted s then setIsVideoReady true s else s
  | ActionData => setIsSubmitting false s
  | Tick id f =>
      match find_interval id (intervals s) with
      | Some iv => detectFrame iv f s
      | None => s
      end
  end.

(** An event, then the render it causes.  Each [detectFrame] runs to
    its end and the page renders before the next event; [Overlap.step]
    lets a call wait while other events happen. *)
Definition step (s : Home) (e : Event) : Home := commit s (handle s e).

Definition run (s : Home) (es : list Event) : Home := fold_left step es s.

Definition reachable (s : Home) : Prop := exists es, s = run initial es.

(** The frame the oldest active interval polls next. *)
Definition poll (s : Home) (f : Frame) : Home :=
  match intervals s with
  | iv :: _ => step s (Tick (intervalId iv) f)
  | [] => s
  end.

Definition polls (s : Home) (fs : list Frame) : Home := fold_left poll fs s.

(** Whether the frame makes [hasGlass && hasG] true. *)
Definition detected (f : Frame) : bool :=
  match predictions f with
  | Some preds => has_class "glass" preds && has_class "G" preds
  | None => false
  end.

End Detect.

(* ================================================================== *)
(** ** Sample worlds, requests and frames *)

Module Sample.
Import Js Action.

(** The first output object of a well-formed answer of the workflow. *)
Definition output : value :=
  VObj [("pint results",
         VObj [("predictions",
                VObj [("predictions",
                       VArr [VObj [("class", VStr "G")];
                             VObj [("class", VStr "glass")]])])]);
        ("split image", VArr [VObj [("value", VStr "c3BsaXQ=")]]);
        ("pint image", VObj [("value", VStr "cGludA==")])].

Definition body : value := VObj [("outputs", VArr [output])].

(** An answer that shows a glass and no G. *)
Definition body_without_G : value :=
  VObj [("outputs",
         VArr [VObj [("pint results",
                      VObj [("predictions",
                             VObj [("predictions",
                                    VArr [VObj [("class", VStr "glass")]])])])]])].

(** An answer with the G and without the split image. *)
Definition body_without_split : value :=
  VObj [("outputs",
         VArr [VObj [("pint results",
                      VObj [("predictions",
                             VObj [("predictions",
                                    VArr [VObj [("class", VStr "G")]])])]);
                     ("pint image", VObj [("value", VStr "cGludA==")])]])].

Definition answer_200 (b : value) : Response :=
  {| ok := true; status := 200; text := Ok ""; json := Ok b |}.

Definition answer_503 : Response :=
  {| ok := false; status := 503; text := Ok "Service Unavailable";
     json := Throw (IsError "Unexpected token S in JSON at position 0") |}.

Definition place : value :=
  VObj [("city", VStr "Dublin"); ("region", VStr "Leinster");
        ("country", VStr "Ireland"); ("country_code", VStr "IE")].

(** A world that answers [fetch] with [r] and the insert with [db]. *)
Definition world (r : result Response) (db : DbResponse) : World :=
  {| ROBOFLOW_API_KEY := Some "rf_key";
     generateBeerUsername := "HoppyStout42";
     randomUUID := "3f0c6f0e-0000-4000-8000-000000000001";
     toISOString := "2025-03-01T12:00:00.000Z";
     fetch := fun _ _ _ => r;
     calculateScore := fun _ => Ok (VNum (9 # 2)%Q);
     uploadImage := fun _ bucket => Ok (VStr ("https://storage.test/" ++ bucket ++ "/1.jpg"));
     getLocationData := fun _ => Ok place;
     insert := fun _ _ => db |}.

Definition stored : DbResponse := {| data := Some "17"; error := None |}.

(** The insert answers with an error object of the database client, a
    plain object with a [message]. *)
Definition duplicate_key : value :=
  VObj [("message", VStr "duplicate key value violates unique constraint");
        ("code", VStr "23505")].

Definition refused : DbResponse :=
  {| data := None; error := Some (NotError duplicate_key) |}.

Definition request : Request :=
  {| image := Some "aW1hZ2U=";
     headers := [("fly-client-ip", "203.0.113.7")] |}.

End Sample.

(* ================================================================== *)
(** ** Properties named by the specification *)

Module Claims.
Import Js Action.

(** A prediction that is there and whose class is not G. *)
Definition not_G (pred : value) : Prop :=
  nullish pred = false /\ strict_eq_str (opt_get pred "class") "G" = false.

Definition is_fetch (e : event) : bool :=
  match e with
  | EvFetch _ _ _ => true
  | _ => false
  end.

(** The request to the inference API was rejected or answered with a
    status that is not ok. *)
Definition api_failed (w : World) (req : Request) : Prop :=
  match fetch w api_url (ROBOFLOW_API_KEY w) (image req) with
  | Throw _ => True
  | Ok response => ok response = false
  end.

(** A step of the action fails with the thrown value [e]: the API
    answers with a status that is not ok; a G was found and the split
    or the pint image is missing; the insert was made and answered with
    an error. *)
Inductive failure (w : World) (req : Request) : thrown -> Prop :=
| api_not_ok response errorText :
    fetch w api_url (ROBOFLOW_API_KEY w) (image req) = Ok response ->
    ok response = false ->
    text response = Ok errorText ->
    failure w req
      (IsError ("API request failed (" ++ string_of_Z (status response)
                ++ "): " ++ errorText))
| image_missing response result predictions outputs out0
                splitImageData pintImageData :
    fetch w api_url (ROBOFLOW_API_KEY w) (image req) = Ok response ->
    ok response = true ->
    json response = Ok result ->
    pintPredictions result = Ok predictions ->
    hasG predictions = Ok true ->
    get result "outputs" = Ok outputs ->
    get0 outputs = Ok out0 ->
    get out0 "split image" = Ok splitImageData ->
    get out0 "pint image" = Ok pintImageData ->
    truthy (opt_get (opt_get0 splitImageData) "value")
    && truthy (opt_get pintImageData "value") = false ->
    failure w req (IsError "Missing required image data from API response")
| insert_error before row dbError :
    snd (action w req) = (before ++ [EvInsert "scores" row])%list ->
    error (insert w "scores" row) = Some dbError ->
    failure w req dbError.

End Claims.

(* ================================================================== *)
(** ** Runs of the detection loop *)

Module Scenario.
Import Detect.

Local Open Scope nat_scope.

(** A frame that shows the glass and the G, and one that shows the
    glass alone. *)
Definition good : Frame :=
  {| predictions := Some [ {| class := "glass" |}; {| class := "G" |} ];
     imageData := "data:image/jpeg;base64,Z29vZA==" |}.

Definition bad : Frame :=
  {| predictions := Some [ {| class := "glass" |} ];
     imageData := "data:image/jpeg;base64,YmFk" |}.

(** The page up to the first poll: engine and model loaded, camera
    started, video ready. *)
Definition setup : list Event :=
  [EngineLoaded; WorkerStarted "worker-1"; StartAnalysis; LoadedMetadata].

Definition ready : Home := run initial setup.

(** Five good frames in a row: the fifth is captured and submitted.
    Each change of the counter registers the interval anew, under the
    next id. *)
Definition first_capture : list Event :=
  (setup ++ [Tick 0 good; Tick 1 good; Tick 2 good; Tick 3 good; Tick 4 good])%list.

(** The action answers the submission with an error object, the page
    shows its main view again, and the user starts the camera again. *)
Definition restart : list Event :=
  (first_capture ++ [ActionData; StartAnalysis])%list.

(** One good frame after the restart. *)
Definition second_capture : list Event :=
  (restart ++ [Tick 5 good])%list.

(** Whether [detectFrame] has submitted a capture by the end of the
    frames, polled one after the other from [ready]. *)
Definition captured (fs : list Frame) : bool :=
  negb (length (submitted (polls ready fs)) =? 0).

(** Whether more than half of the frames hold both detections. *)
Definition majority (fs : list Frame) : bool :=
  length fs <? 2 * length (filter detected fs).

(** Whether frame [f], polled in state [s], takes the capture branch:
    both detections, and a counter that stood at 4 or more. *)
Definition triggers (s : Home) (f : Frame) : bool :=
  detected f && (4 <=? consecutiveDetections s).

(** The interval the detection effect registers in state [s] under
    [id]. *)
Definition interval_of (s : Home) (id : nat) : Interval :=
  {| intervalId := id;
     period := 500;
     seen_detections := consecutiveDetections s;
     seen_worker := modelWorkerId s |}.

(** What holds after every render: the submitting overlay is only up
    with the camera off, and the browser holds the one interval of the
    last detection effect exactly when the guard of the effect
    passes. *)
Definition consistent (s : Home) : Prop :=
  (isSubmitting s = true -> isCameraActive s = false)
  /\ if loop_ready s
     then exists id, intervals s = [interval_of s id] /\ cleanup s = Some id
     else intervals s = [] /\ cleanup s = None.

End Scenario.

(* ================================================================== *)
(** ** The file upload of the home page *)

Module Upload.
Import Detect.

(** [reader.onloadend] in [handleFileChange]: [result] is
    [reader.result], the data URL of the chosen file or [None] for
    [null].  Gives the image that is submitted, if one is: an empty
    [base64Image] is falsy and nothing is submitted. *)
Definition onloadend (result : option string) : option string :=
  match result with
  | None => None
  | Some r =>
      let base64Image := base64_of r in
      if String.eqb base64Image "" then None else Some base64Image
  end.

(** [handleFileChange]: with no file chosen nothing is read; else the
    file is read as a data URL, [read] is what the reader ends with. *)
Definition handleFileChange {File : Type} (file : option File)
  (readAsDataURL : File -> option string) : option string :=
  match file with
  | None => None
  | Some f => onloadend (readAsDataURL f)
  end.

End Upload.

(* ================================================================== *)
(** ** The message of the score page *)

Module Score.

(** A JavaScript number: a double is a rational, an infinity or NaN. *)
Inductive number : Type :=
| NaN
| NegInfinity
| Finite (q : Q)
| Infinity.

(** [x >= t] for a finite literal [t] *)
Definition ge (x : number) (t : Q) : bool :=
  match x with
  | NaN | NegInfinity => false
  | Finite q => Qle_bool t q
  | Infinity => true
  end.

(** The doubles that the literals [4.70], [3.75] and [3.0] denote;
    [4.70] is not a double, the nearest one is taken. *)
Definition lit_4_70 : Q := (5291729562160333 # 1125899906842624)%Q.
Definition lit_3_75 : Q := (15 # 4)%Q.
Definition lit_3_0 : Q := (3 # 1)%Q.

Definition perfect : string := "Sláinte! 🏆 A Perfect Split!".
Definition beautiful : string := "Beautiful Split! ⭐ Like a True Dubliner!".
Definition cheers : string := "Cheers for trying! 🍺 Have Another Go!".
Definition awaits : string := "The Perfect Split Awaits! 🎓 Try Again!".

Definition getScoreMessage (score : number) : string :=
  if ge score lit_4_70 then perfect
  else if ge score lit_3_75 then beautiful
  else if ge score lit_3_0 then cheers
  else awaits.

(** The four messages from the lowest to the highest. *)
Definition rank (message : string) : nat :=
  if String.eqb message perfect then 3
  else if String.eqb message beautiful then 2
  else if String.eqb message cheers then 1
  else 0.

(** [x <= y] on numbers that are not NaN *)
Definition le (x y : number) : Prop :=
  match x, y with
  | NaN, _ | _, NaN => False
  | NegInfinity, _ => True
  | _, Infinity => True
  | Finite p, Finite q => (p <= q)%Q
  | _, _ => False
  end.

End Score.

(* ================================================================== *)
(** ** Further predicates and samples *)

Module More.
Import Js Action Detect.

(** The calls are a first part of: fetch, upload to [split-images],
    upload to [pint-images], locate, insert into [scores]; at least the
    fetch. *)
Definition in_order (tr : list event) : bool :=
  match tr with
  | [EvFetch _ _ _] => true
  | [EvFetch _ _ _; EvUpload _ b1] => b1 =? "split-images"
  | [EvFetch _ _ _; EvUpload _ b1; EvUpload _ b2] =>
      (b1 =? "split-images") && (b2 =? "pint-images")
  | [EvFetch _ _ _; EvUpload _ b1; EvUpload _ b2; EvLocate _] =>
      (b1 =? "split-images") && (b2 =? "pint-images")
  | [EvFetch _ _ _; EvUpload _ b1; EvUpload _ b2; EvLocate _; EvInsert t _] =>
      (b1 =? "split-images") && (b2 =? "pint-images") && (t =? "scores")
  | _ => false
  end.

(** A world like [Sample.world] whose [calculateScore] throws. *)
Definition world_without_score : World :=
  {| ROBOFLOW_API_KEY := Some "rf_key";
     generateBeerUsername := "HoppyStout42";
     randomUUID := "3f0c6f0e-0000-4000-8000-000000000001";
     toISOString := "2025-03-01T12:00:00.000Z";
     fetch := fun _ _ _ => Ok (Sample.answer_200 Sample.body);
     calculateScore := fun _ => Throw (IsError "No G prediction found");
     uploadImage := fun _ bucket => Ok (VStr ("https://storage.test/" ++ bucket ++ "/1.jpg"));
     getLocationData := fun _ => Ok Sample.place;
     insert := fun _ _ => Sample.stored |}.

(** The row that [Sample.world] is asked to insert for
    [Sample.request]. *)
Definition stored_row : ScoreRow :=
  {| split_score := VNum (9 # 2)%Q;
     split_image_url := VStr "https://storage.test/split-images/1.jpg";
     pint_image_url := VStr "https://storage.test/pint-images/1.jpg";
     username := "HoppyStout42";
     created_at := "2025-03-01T12:00:00.000Z";
     session_id := "3f0c6f0e-0000-4000-8000-000000000001";
     city := VStr "Dublin"; region := VStr "Leinster";
     country := VStr "Ireland"; country_code := VStr "IE" |}.

(** A request that came through a proxy and not through Fly. *)
Definition forwarded_request : Request :=
  {| image := Some "aW1hZ2U=";
     headers := [("x-forwarded-for", " 198.51.100.4 , 10.0.0.1");
                 ("x-real-ip", "10.0.0.1")] |}.

Definition is_start (e : Event) : bool :=
  match e with
  | StartAnalysis => true
  | _ => false
  end.

(** The clicks on Start Analysis among the events. *)
Definition clicks (es : list Event) : nat := length (filter is_start es).

Fixpoint all_word (s : string) : bool :=
  match s with
  | EmptyString => true
  | String c rest => is_word c && all_word rest
  end.

Definition starts_with_space (s : string) : bool :=
  match s with
  | EmptyString => false
  | String c _ => is_space c
  end.

Fixpoint ends_with_space (s : string) : bool :=
  match s with
  | EmptyString => false
  | String c EmptyString => is_space c
  | String _ rest => ends_with_space rest
  end.

Fixpoint has_comma (s : string) : bool :=
  match s with
  | EmptyString => false
  | String c rest => Ascii.eqb c "," || has_comma rest
  end.

End More.

(* ================================================================== *)
(** ** The loop with calls of [detectFrame] in flight *)

Module Overlap.
Import Detect Scenario.

Local Open Scope nat_scope.

(** The guard at the head of [detectFrame] (line 262), for a call of
    the [detectFrame] of interval [iv] that starts in state [s]. *)
Definition admitted (iv : Interval) (s : Home) : bool :=
  worker_truthy (seen_worker iv) && video_mounted s.

(** [detectFrame] from line 269 on: what a call that closed over [iv]
    does once its awaits have resolved with frame [f], in the state [s]
    of that moment.  The tests of lines 275 and 317 read the value the
    call closed over; the updater of line 273 and the refs of line 280
    are those of [s]. *)
Definition settle (iv : Interval) (f : Frame) (s : Home) : Home :=
  match predictions f with
  | None => s
  | Some preds =>
      let hasGlass := has_class "glass" preds in
      let hasG := has_class "G" preds in
      if hasGlass && hasG then
        let s1 := setConsecutiveDetections (fun prev => prev + 1) s in
        if 4 <=? seen_detections iv then
          let s2 := setFeedbackMessage "Perfect! Processing your pour..." s1 in
          let s3 := setIsProcessing true s2 in
          let s4 := setIsSubmitting true s3 in
          if video_mounted s && canvas_mounted s then
            let base64Image := base64_of (imageData f) in
            let s5 := setIsCameraActive false s4 in
            submit base64Image s5
          else s4
        else if 1 <=? seen_detections iv then
          setFeedbackMessage "Hold still..." s1
        else
          setFeedbackMessage "Keep the glass centered..." s1
      else
        let s1 := setConsecutiveDetections (fun _ => 0) s in
        if negb hasGlass then setFeedbackMessage "Show your pint glass" s1
        else if negb hasG then
          setFeedbackMessage "Make sure the G pattern is visible" s1
        else s1
  end.

(** The page with the calls of [detectFrame] that wait for their
    import or their inference, oldest first; each is known by the
    interval whose closure it runs in. *)
Record Page := {
  home : Home;
  pending : list Interval
}.

Definition initial : Page := {| home := Detect.initial; pending := [] |}.

Fixpoint remove_nth {A : Type} (k : nat) (l : list A) : list A :=
  match l, k with
  | [], _ => []
  | _ :: rest, 0 => rest
  | x :: rest, S k' => x :: remove_nth k' rest
  end.

Inductive Event : Type :=
| Atomic (e : Detect.Event)   (* an event handled to its end; a tick whose call ends before anything else happens *)
| Fire (id : nat)             (* interval [id] fires: its detectFrame starts and waits *)
| Settle (k : nat) (f : Frame). (* the awaits of the [k]-th waiting call resolve *)

(** An event of the page with calls in flight.  A call that starts
    changes no state; a call that ends queues its updates and the page
    renders.  Clearing an interval does not stop a call that waits.
    What [new CVImage(videoRef.current)] and [infer] make of a video
    that went away while the call waited is in the frame ([None] when
    they throw). *)
Definition step (p : Page) (e : Event) : Page :=
  match e with
  | Atomic e0 => {| home := Detect.step (home p) e0; pending := pending p |}
  | Fire id =>
      match find_interval id (intervals (home p)) with
      | Some iv =>
          if admitted iv (home p)
          then {| home := home p; pending := pending p ++ [iv] |}
          else p
      | None => p
      end
  | Settle k f =>
      match nth_error (pending p) k with
      | Some iv =>
          {| home := commit (home p) (settle iv f (home p));
             pending := remove_nth k (pending p) |}
      | None => p
      end
  end.

Definition run (p : Page) (es : list Event) : Page := fold_left step es p.

Definition reachable (p : Page) : Prop := exists es, p = run initial es.

(** The frame the registered interval polls next, its call ending
    before anything else happens. *)
Definition poll (p : Page) (f : Frame) : Page :=
  match intervals (home p) with
  | iv :: _ => step p (Atomic (Tick (intervalId iv) f))
  | [] => p
  end.

Definition polls (p : Page) (fs : list Frame) : Page := fold_left poll fs p.

(** A click on Start Analysis *)
Definition is_click (e : Event) : bool :=
  match e with
  | Atomic StartAnalysis => true
  | _ => false
  end.

(** Four good frames polled one after the other, then the interval
    fires once more: a call waits that closed over a counter of 4. *)
Definition at_four : Page :=
  run initial
    (map Atomic (setup ++ [Tick 0 good; Tick 1 good; Tick 2 good; Tick 3 good])
     ++ [Fire 4]).

(** Inference slower than the period: the first interval fires seven
    times before its first call ends; then the seven calls end, each on
    a good frame. *)
Definition stale : Page :=
  run initial
    (map Atomic setup
     ++ [Fire 0; Fire 0; Fire 0; Fire 0; Fire 0; Fire 0; Fire 0]
     ++ [Settle 0 good; Settle 0 good; Settle 0 good; Settle 0 good;
         Settle 0 good; Settle 0 good; Settle 0 good]).

End Overlap.

(* ================================================================== *)
(** ** The action: proofs *)

Module ActionFacts.
Import Js Action Claims.

(** Splits on the innermost scrutinee of a [match] or [if]. *)
Ltac split_scrutinee T :=
  match T with
  | context [match ?x with _ => _ end] =>
      lazymatch x with
      | context [match _ with _ => _ end] => fail
      | _ => destruct x eqn:?
      end
  end.

Ltac unfold_action :=
  cbv [action try_catch process bind call lift throw ret failed].

(** Follows the action down every branch, in a hypothesis. *)
Ltac branches_in H :=
  cbv [action try_catch process bind call lift throw ret failed] in H;
  repeat (cbn beta iota in H;
          let T := type of H in split_scrutinee T;
          cbn beta iota in H; try discriminate H).

(** The same in the goal. *)
Ltac branches :=
  unfold_action;
  repeat (cbn beta iota;
          match goal with |- ?G => split_scrutinee G end;
          cbn beta iota).

Lemma action_total (w : World) (req : Request) :
  exists o, fst (action w req) = Ok o.
Proof.
  branches; eexists; reflexivity.
Qed.

(** Whatever the body of the [try] throws, the action returns the
    object of the [catch] block, and the calls made stay made. *)
Lemma action_catches (w : World) (req : Request) (e : thrown) (tr : list event) :
  process w req (generateBeerUsername w) (randomUUID w) (clientIP req) []
  = (Throw e, tr) ->
  action w req
  = (Ok (Returned false (errorMessage e) "Failed to process image" 500), tr).
Proof.
  intros H. unfold action, try_catch. rewrite H. reflexivity.
Qed.

Lemma not_G_is_G (pred : value) : not_G pred -> is_G pred = Ok false.
Proof.
  intros [Hn Hc]. unfold is_G. unfold opt_get in Hc. rewrite Hn in Hc.
  destruct (get pred "class") eqn:E.
  - now rewrite Hc.
  - destruct pred; simpl in *; discriminate.
Qed.

Lemma some_no_G (items : list value) :
  Forall not_G items -> some is_G items = Ok false.
Proof.
  induction 1 as [|pred rest Hp _ IH]; simpl.
  - reflexivity.
  - now rewrite (not_G_is_G _ Hp).
Qed.

(** A G is only found in predictions that the first output holds: the
    guard of line 93 cannot fire once line 82 has let the action pass. *)
Lemma hasG_outputs_truthy (result outputs predictions : value) :
  get result "outputs" = Ok outputs ->
  pintPredictions result = Ok predictions ->
  hasG predictions = Ok true ->
  truthy (opt_get0 outputs) = true.
Proof.
  intros Ho Hp Hg. unfold pintPredictions in Hp. rewrite Ho in Hp.
  injection Hp as <-.
  destruct (truthy (opt_get0 outputs)) eqn:Ht; [reflexivity|].
  assert (Hu : opt_get (opt_get0 outputs) "pint results" = VUndefined).
  { destruct (opt_get0 outputs) as [| |b|q|s|l|fs]; simpl in Ht;
      try reflexivity; discriminate. }
  rewrite Hu in Hg. simpl in Hg. discriminate.
Qed.

(** C1. When the action ends in a redirect, the calls it made are, in
    this order: the request to the inference API; the upload of the
    split image read from the first output of the parsed answer, to
    [split-images]; the upload of the pint image, to [pint-images]; the
    location lookup; one insert into [scores].  The redirect goes to
    [/score/] followed by the id of the row the insert returned. *)
Theorem action_redirect_steps (w : World) (req : Request)
  (location : string) (hs : list (string * string)) (tr : list event) :
  action w req = (Ok (Redirect location hs), tr) ->
  exists response result outputs out0 splitImageData pintImageData row id,
    fetch w api_url (ROBOFLOW_API_KEY w) (image req) = Ok response
    /\ ok response = true
    /\ json response = Ok result
    /\ get result "outputs" = Ok outputs
    /\ get0 outputs = Ok out0
    /\ get out0 "split image" = Ok splitImageData
    /\ get out0 "pint image" = Ok pintImageData
    /\ tr = [EvFetch api_url (ROBOFLOW_API_KEY w) (image req);
             EvUpload (opt_get (opt_get0 splitImageData) "value") "split-images";
             EvUpload (opt_get pintImageData "value") "pint-images";
             EvLocate (clientIP req);
             EvInsert "scores" row]
    /\ calculateScore w out0 = Ok (split_score row)
    /\ error (insert w "scores" row) = None
    /\ data (insert w "scores" row) = Some id
    /\ location = "/score/" ++ id.
Proof.
  intros H. branches_in H.
  injection H as <- <- <-.
  apply negb_false_iff in Heqb.
  exists a, a0, a3, a4, a5, a6.
  eexists. exists s.
  repeat split; try eassumption; reflexivity.
Qed.

Lemma action_redirect_steps_witness :
  exists response result outputs out0 splitImageData pintImageData row id,
    let w := Sample.world (Ok (Sample.answer_200 Sample.body)) Sample.stored in
    let req := Sample.request in
    fetch w api_url (ROBOFLOW_API_KEY w) (image req) = Ok response
    /\ ok response = true
    /\ json response = Ok result
    /\ get result "outputs" = Ok outputs
    /\ get0 outputs = Ok out0
    /\ get out0 "split image" = Ok splitImageData
    /\ get out0 "pint image" = Ok pintImageData
    /\ [EvFetch api_url (Some "rf_key") (Some "aW1hZ2U=");
        EvUpload (VStr "c3BsaXQ=") "split-images";
        EvUpload (VStr "cGludA==") "pint-images";
        EvLocate "203.0.113.7";
        EvInsert "scores"
          {| split_score := VNum (9 # 2)%Q;
             split_image_url := VStr "https://storage.test/split-images/1.jpg";
             pint_image_url := VStr "https://storage.test/pint-images/1.jpg";
             username := "HoppyStout42";
             created_at := "2025-03-01T12:00:00.000Z";
             session_id := "3f0c6f0e-0000-4000-8000-000000000001";
             city := VStr "Dublin"; region := VStr "Leinster";
             country := VStr "Ireland"; country_code := VStr "IE" |}]
       = [EvFetch api_url (ROBOFLOW_API_KEY w) (image req);
          EvUpload (opt_get (opt_get0 splitImageData) "value") "split-images";
          EvUpload (opt_get pintImageData "value") "pint-images";
          EvLocate (clientIP req);
          EvInsert "scores" row]
    /\ calculateScore w out0 = Ok (split_score row)
    /\ error (insert w "scores" row) = None
    /\ data (insert w "scores" row) = Some id
    /\ "/score/17" = "/score/" ++ id.
Proof.
  exact (action_redirect_steps
           (Sample.world (Ok (Sample.answer_200 Sample.body)) Sample.stored)
           Sample.request "/score/17"
           [session_cookie "3f0c6f0e-0000-4000-8000-000000000001"]
           _ eq_refl).
Defined.

(** C5. When the API answers ok with a JSON body whose pint-results
    predictions (the empty list when the body has none) are a list of
    predictions none of which has class G, the action returns the
    object [{success: false, error: "No G detected", message: "No G
    pattern detected", status: 400}] and has called nothing but the
    API: no upload, no insert. *)
Theorem action_no_G (w : World) (req : Request)
  (response : Response) (result : value) (items : list value) :
  fetch w api_url (ROBOFLOW_API_KEY w) (image req) = Ok response ->
  ok response = true ->
  json response = Ok result ->
  pintPredictions result = Ok (VArr items) ->
  Forall not_G items ->
  action w req
  = (Ok (Returned false "No G detected" "No G pattern detected" 400),
     [EvFetch api_url (ROBOFLOW_API_KEY w) (image req)]).
Proof.
  intros Hf Hok Hj Hp Hitems.
  unfold_action. rewrite Hf. cbn beta iota. rewrite Hok. cbn.
  rewrite Hj, Hp. cbn beta iota.
  unfold hasG. rewrite (some_no_G _ Hitems). reflexivity.
Qed.

Lemma action_no_G_witness :
  action (Sample.world (Ok (Sample.answer_200 Sample.body_without_G)) Sample.stored)
         Sample.request
  = (Ok (Returned false "No G detected" "No G pattern detected" 400),
     [EvFetch api_url (Some "rf_key") (Some "aW1hZ2U=")]).
Proof.
  apply (action_no_G
           (Sample.world (Ok (Sample.answer_200 Sample.body_without_G)) Sample.stored)
           Sample.request (Sample.answer_200 Sample.body_without_G)
           Sample.body_without_G [VObj [("class", VStr "glass")]]).
  - reflexivity.
  - reflexivity.
  - reflexivity.
  - reflexivity.
  - repeat constructor.
Defined.

(** An answer without outputs, here the empty object, is answered with
    the object of status 400: line 82 returns before the guard of
    line 93 is reached. *)
Example action_without_outputs :
  fst (action (Sample.world (Ok (Sample.answer_200 (VObj []))) Sample.stored)
              Sample.request)
  = Ok (Returned false "No G detected" "No G pattern detected" 400).
Proof. reflexivity. Qed.

(** C6, as stated, fails when the insert answers with an error object
    that is not an instance of [Error]: the object carries the message
    [duplicate key value violates unique constraint], the action
    returns [Unknown error occurred] in its place. *)
Lemma action_db_error_message_lost :
  let w := Sample.world (Ok (Sample.answer_200 Sample.body)) Sample.refused in
  (exists before row,
      snd (action w Sample.request) = (before ++ [EvInsert "scores" row])%list
      /\ error (insert w "scores" row) = Some (NotError Sample.duplicate_key))
  /\ get Sample.duplicate_key "message"
     = Ok (VStr "duplicate key value violates unique constraint")
  /\ fst (action w Sample.request)
     = Ok (Returned false "Unknown error occurred" "Failed to process image" 500)
  /\ fst (action w Sample.request)
     <> Ok (Returned false "duplicate key value violates unique constraint"
                    "Failed to process image" 500).
Proof.
  cbv zeta. split; [|split; [|split]].
  - eexists [_; _; _; _], _. split; reflexivity.
  - reflexivity.
  - reflexivity.
  - discriminate.
Qed.

(** C6, amended.  When the API answers with a status that is not ok,
    when a G was found and the split or the pint image is missing, or
    when the insert answers with an error, the action does not throw:
    it returns [{success: false, message: "Failed to process image",
    error, status: 500}], where [error] is the message of the thrown
    value when that is an instance of [Error] and
    [Unknown error occurred] otherwise. *)
Theorem action_failure_returns_500 (w : World) (req : Request) (e : thrown) :
  failure w req e ->
  fst (action w req)
  = Ok (Returned false (errorMessage e) "Failed to process image" 500).
Proof.
  intros [response errorText Hf Hok Ht
         |response result predictions outputs out0 sd pd
            Hf Hok Hj Hp Hg Ho H0 Hs Hpi Himg
         |before row dbError Htr Herr].
  - unfold_action. rewrite Hf. cbn beta iota. rewrite Hok. cbn.
    rewrite Ht. reflexivity.
  - pose proof (hasG_outputs_truthy _ _ _ Ho Hp Hg) as Htruthy.
    unfold_action. rewrite Hf. cbn beta iota. rewrite Hok. cbn.
    rewrite Hj, Hp. cbn beta iota. rewrite Hg. cbn.
    rewrite Ho. cbn beta iota. rewrite Htruthy. cbn.
    rewrite H0, Hs, Hpi. cbn beta iota.
    apply andb_false_iff in Himg.
    destruct Himg as [-> | ->]; cbn; [reflexivity|].
    now rewrite orb_true_r.
  - revert Htr. branches; cbn [snd fst]; intros Htr;
      apply app_inj_tail in Htr; destruct Htr as [_ Htr];
      try discriminate Htr.
    + injection Htr as <-. congruence.
    + injection Htr as <-. congruence.
    + injection Htr as <-. congruence.
Qed.

Lemma action_failure_returns_500_witness :
  fst (action (Sample.world (Ok Sample.answer_503) Sample.stored) Sample.request)
  = Ok (Returned false "API request failed (503): Service Unavailable"
                 "Failed to process image" 500).
Proof.
  apply (action_failure_returns_500
           (Sample.world (Ok Sample.answer_503) Sample.stored) Sample.request
           (IsError "API request failed (503): Service Unavailable")).
  apply (api_not_ok _ _ Sample.answer_503 "Service Unavailable");
    reflexivity.
Defined.

(** C7. The action calls the inference API exactly once, whatever
    happens.  When that request is rejected or answered with a status
    that is not ok, the API call is the only call made and the action
    returns the error object of status 500. *)
Theorem action_fetches_once (w : World) (req : Request) :
  length (filter is_fetch (snd (action w req))) = 1
  /\ (api_failed w req ->
      snd (action w req) = [EvFetch api_url (ROBOFLOW_API_KEY w) (image req)]
      /\ exists m,
          fst (action w req)
          = Ok (Returned false m "Failed to process image" 500)).
Proof.
  split.
  - branches; reflexivity.
  - unfold api_failed. unfold_action.
    destruct (fetch w api_url (ROBOFLOW_API_KEY w) (image req)) as [response|e].
    + intros ->. cbn. destruct (text response); cbn; eauto.
    + intros _. cbn. eauto.
Qed.

Lemma action_fetches_once_witness :
  snd (action (Sample.world (Ok Sample.answer_503) Sample.stored) Sample.request)
  = [EvFetch api_url (Some "rf_key") (Some "aW1hZ2U=")]
  /\ exists m,
      fst (action (Sample.world (Ok Sample.answer_503) Sample.stored)
                  Sample.request)
      = Ok (Returned false m "Failed to process image" 500).
Proof.
  apply (proj2 (action_fetches_once
                  (Sample.world (Ok Sample.answer_503) Sample.stored)
                  Sample.request)).
  reflexivity.
Defined.

End ActionFacts.

(* ================================================================== *)
(** ** The detection loop: proofs *)

Module DetectFacts.
Import Detect Scenario.

Local Open Scope nat_scope.

Lemma option_eqb_eq (a b : option string) : option_eqb a b = true -> a = b.
Proof.
  destruct a, b; simpl; try discriminate; auto.
  intros H. apply String.eqb_eq in H. now subst.
Qed.

Lemma same_deps_eq (old new : Home) :
  same_deps old new = true ->
  modelWorkerId old = modelWorkerId new
  /\ isCameraActive old = isCameraActive new
  /\ inferEngine old = inferEngine new
  /\ isVideoReady old = isVideoReady new
  /\ consecutiveDetections old = consecutiveDetections new.
Proof.
  unfold same_deps. intros H.
  repeat (apply andb_true_iff in H; destruct H as [H ?]).
  repeat split.
  - now apply option_eqb_eq.
  - now apply Bool.eqb_prop.
  - now apply Bool.eqb_prop.
  - now apply Bool.eqb_prop.
  - now apply Nat.eqb_eq.
Qed.

Lemma model_effect_fields (s : Home) :
  modelWorkerId (model_effect s) = modelWorkerId s
  /\ isCameraActive (model_effect s) = isCameraActive s
  /\ inferEngine (model_effect s) = inferEngine s
  /\ isVideoReady (model_effect s) = isVideoReady s
  /\ consecutiveDetections (model_effect s) = consecutiveDetections s
  /\ isSubmitting (model_effect s) = isSubmitting s
  /\ intervals (model_effect s) = intervals s
  /\ cleanup (model_effect s) = cleanup s
  /\ next_id (model_effect s) = next_id s
  /\ submitted (model_effect s) = submitted s.
Proof.
  unfold model_effect. destruct (negb (inferEngine s) || modelLoading s);
    repeat split.
Qed.

Lemma commit_consistent (old new : Home) :
  consistent old ->
  intervals new = intervals old ->
  cleanup new = cleanup old ->
  (isSubmitting new = true -> isCameraActive new = false) ->
  consistent (commit old new).
Proof.
  intros [Hsub Htim] Hi Hc Hnew. unfold commit.
  destruct (model_effect_fields new)
    as (Ew & Ea & Ee & Ev & En & Es & Ei & Ec & Ex & _).
  destruct (same_deps old (model_effect new)) eqn:Hd.
  - apply same_deps_eq in Hd. destruct Hd as (Dw & Da & De & Dv & Dn).
    split.
    + rewrite Es, Ea. exact Hnew.
    + assert (Hr : loop_ready (model_effect new) = loop_ready old).
      { unfold loop_ready. now rewrite <- Dw, <- Da, <- De, <- Dv. }
      rewrite Hr. rewrite Ei, Ec, Hi, Hc.
      destruct (loop_ready old).
      * destruct Htim as (id & H1 & H2). exists id. split; [|exact H2].
        rewrite H1. unfold interval_of. now rewrite Dw, Dn.
      * exact Htim.
  - set (m := model_effect new) in *.
    assert (Hclean : intervals (run_cleanup m) = [] /\ cleanup (run_cleanup m) = None
                     /\ isSubmitting (run_cleanup m) = isSubmitting m
                     /\ isCameraActive (run_cleanup m) = isCameraActive m
                     /\ loop_ready (run_cleanup m) = loop_ready m
                     /\ consecutiveDetections (run_cleanup m) = consecutiveDetections m
                     /\ modelWorkerId (run_cleanup m) = modelWorkerId m).
    { unfold run_cleanup. rewrite Ec, Hc.
      destruct (loop_ready old).
      - destruct Htim as (id & H1 & H2). rewrite H2. simpl.
        rewrite Ei, Hi, H1. simpl. rewrite Nat.eqb_refl. simpl.
        repeat split.
      - destruct Htim as (H1 & H2). rewrite H2.
        repeat split; try reflexivity.
        + now rewrite Ei, Hi.
        + now rewrite Ec, Hc. }
    destruct Hclean as (C1 & C2 & C3 & C4 & C5 & C6 & C7).
    unfold detection_effect.
    destruct (loop_ready (run_cleanup m)) eqn:Hr; cbn [negb].
    + split.
      * cbn [setInterval with_timers isSubmitting isCameraActive].
        rewrite C3, C4, Es, Ea. exact Hnew.
      * assert (Hr' : loop_ready (setInterval (run_cleanup m)) = true) by exact Hr.
        rewrite Hr'.
        exists (next_id (run_cleanup m)).
        cbn [setInterval with_timers intervals cleanup]. rewrite C1.
        split; reflexivity.
    + split.
      * rewrite C3, C4, Es, Ea. exact Hnew.
      * rewrite Hr. split; assumption.
Qed.

Lemma commit_fields (old new : Home) :
  submitted (commit old new) = submitted new
  /\ consecutiveDetections (commit old new) = consecutiveDetections new
  /\ isCameraActive (commit old new) = isCameraActive new
  /\ isSubmitting (commit old new) = isSubmitting new
  /\ isVideoReady (commit old new) = isVideoReady new
  /\ inferEngine (commit old new) = inferEngine new
  /\ modelWorkerId (commit old new) = modelWorkerId new.
Proof.
  unfold commit, detection_effect, run_cleanup, model_effect.
  destruct (negb (inferEngine new) || modelLoading new);
    match goal with |- context [same_deps ?a ?b] => destruct (same_deps a b) end;
    try (repeat split; fail);
    match goal with |- context [cleanup ?a] => destruct (cleanup a) end;
    match goal with |- context [loop_ready ?a] => destruct (loop_ready a) end;
    repeat split.
Qed.

Lemma handle_timers (s : Home) (e : Event) :
  intervals (handle s e) = intervals s /\ cleanup (handle s e) = cleanup s.
Proof.
  destruct e as [| id | | | | | id f]; cbn [handle].
  - destruct (inferEngine s); split; reflexivity.
  - destruct (modelWorkerId s); [|destruct (modelLoading s)]; split; reflexivity.
  - destruct (start_button_shown s); split; reflexivity.
  - split; reflexivity.
  - destruct (video_mounted s); split; reflexivity.
  - split; reflexivity.
  - destruct (find_interval id (intervals s)) as [iv|]; [|split; reflexivity].
    unfold detectFrame.
    repeat match goal with
           | |- context [if ?c then _ else _] => destruct c
           | |- context [match predictions f with _ => _ end] =>
               destruct (predictions f)
           end; split; reflexivity.
Qed.

Lemma loop_ready_true (s : Home) :
  loop_ready s = true ->
  inferEngine s = true /\ worker_truthy (modelWorkerId s) = true
  /\ isCameraActive s = true /\ isVideoReady s = true.
Proof.
  unfold loop_ready, isClient. intros H.
  repeat (apply andb_true_iff in H; destruct H as [H ?]). auto.
Qed.

(** An interval that can fire is the one of the current render. *)
Lemma active_interval (s : Home) (id : nat) (iv : Interval) :
  consistent s ->
  find_interval id (intervals s) = Some iv ->
  iv = interval_of s id /\ loop_ready s = true /\ video_mounted s = true.
Proof.
  intros [Hsub Htim] Hfind.
  destruct (loop_ready s) eqn:Hr.
  - destruct Htim as (id0 & Hi & _). rewrite Hi in Hfind.
    unfold find_interval in Hfind. cbn in Hfind.
    destruct (id0 =? id) eqn:E; [|discriminate].
    apply Nat.eqb_eq in E. subst id0. injection Hfind as <-.
    repeat split.
    destruct (loop_ready_true s Hr) as (_ & _ & Hc & _).
    unfold video_mounted. rewrite Hc.
    destruct (isSubmitting s); [|reflexivity].
    specialize (Hsub eq_refl). congruence.
  - destruct Htim as (Hi & _). rewrite Hi in Hfind. discriminate.
Qed.

Lemma tick_fields (s : Home) (id : nat) (f : Frame) (iv : Interval) :
  consistent s ->
  find_interval id (intervals s) = Some iv ->
  let s' := handle s (Tick id f) in
  submitted s' = (if triggers s f
                  then submitted s ++ [base64_of (imageData f)]
                  else submitted s)%list
  /\ consecutiveDetections s'
     = match predictions f with
       | None => consecutiveDetections s
       | Some _ => if detected f then consecutiveDetections s + 1 else 0
       end
  /\ isCameraActive s' = negb (triggers s f)
  /\ isSubmitting s' = triggers s f.
Proof.
  intros Hs Hfind.
  destruct (active_interval s id iv Hs Hfind) as (-> & Hr & Hv).
  destruct (loop_ready_true s Hr) as (_ & Hw & Hc & _).
  assert (Hsub : isSubmitting s = false).
  { unfold video_mounted in Hv. destruct (isSubmitting s); [discriminate|reflexivity]. }
  cbn zeta. cbn [handle]. rewrite Hfind.
  unfold detectFrame, triggers, detected, canvas_mounted.
  cbn [interval_of seen_worker seen_detections].
  rewrite Hw. unfold video_mounted. rewrite Hsub, Hc. cbn [negb orb andb].
  destruct (predictions f) as [preds|]; [|auto].
  destruct (has_class "glass" preds), (has_class "G" preds); cbn [andb negb];
    try (repeat split; reflexivity || assumption).
  destruct (4 <=? consecutiveDetections s); [repeat split|].
  destruct (1 <=? consecutiveDetections s); repeat split; assumption.
Qed.

Lemma handle_overlay (s : Home) (e : Event) :
  consistent s ->
  isSubmitting (handle s e) = true -> isCameraActive (handle s e) = false.
Proof.
  intros Hs. pose proof Hs as [Hsub _].
  destruct e as [| id | | | | | id f]; cbn [handle].
  - destruct (inferEngine s); exact Hsub.
  - destruct (modelWorkerId s); [|destruct (modelLoading s)]; exact Hsub.
  - unfold start_button_shown.
    destruct (isSubmitting s) eqn:E; cbn [negb andb].
    + rewrite E. intros _. now apply Hsub.
    + destruct (negb (isCameraActive s)); cbn; congruence.
  - reflexivity.
  - destruct (video_mounted s); exact Hsub.
  - discriminate.
  - destruct (find_interval id (intervals s)) as [iv|] eqn:Hfind; [|exact Hsub].
    destruct (tick_fields s id f iv Hs Hfind) as (_ & _ & Hc & Hb).
    cbn [handle] in Hc, Hb. rewrite Hfind in Hc, Hb.
    rewrite Hc, Hb. now intros ->.
Qed.

Lemma step_consistent (s : Home) (e : Event) :
  consistent s -> consistent (step s e).
Proof.
  intros Hs. unfold step.
  destruct (handle_timers s e) as [Hi Hc].
  apply commit_consistent; auto using handle_overlay.
Qed.

Lemma initial_consistent : consistent initial.
Proof.
  split; [discriminate|]. cbn. split; reflexivity.
Qed.

Lemma run_consistent (es : list Event) (s : Home) :
  consistent s -> consistent (run s es).
Proof.
  revert s. induction es as [|e es IH]; intros s Hs; [exact Hs|].
  cbn. apply IH. now apply step_consistent.
Qed.

Lemma reachable_consistent (s : Home) : reachable s -> consistent s.
Proof.
  intros [es ->]. apply run_consistent, initial_consistent.
Qed.

(** With the camera off and no click on Start Analysis, nothing is
    submitted and the camera stays off. *)
Lemma camera_off_step (s : Home) (e : Event) :
  consistent s ->
  isCameraActive s = false ->
  e <> StartAnalysis ->
  isCameraActive (step s e) = false /\ submitted (step s e) = submitted s.
Proof.
  intros Hs Hoff Hne. unfold step.
  destruct (commit_fields s (handle s e)) as (-> & _ & -> & _).
  destruct e as [| id | | | | | id f]; cbn [handle].
  - destruct (inferEngine s); auto.
  - destruct (modelWorkerId s); [|destruct (modelLoading s)]; auto.
  - congruence.
  - auto.
  - unfold video_mounted. rewrite Hoff, andb_false_r. auto.
  - auto.
  - destruct (find_interval id (intervals s)) as [iv|] eqn:Hfind; [|auto].
    destruct (active_interval s id iv Hs Hfind) as (_ & _ & Hv).
    unfold video_mounted in Hv. rewrite Hoff, andb_false_r in Hv. discriminate.
Qed.

Lemma tick_keeps (s : Home) (id : nat) (f : Frame) :
  inferEngine (handle s (Tick id f)) = inferEngine s
  /\ modelWorkerId (handle s (Tick id f)) = modelWorkerId s
  /\ isVideoReady (handle s (Tick id f)) = isVideoReady s.
Proof.
  cbn [handle].
  destruct (find_interval id (intervals s)) as [iv|]; [|repeat split].
  unfold detectFrame.
  repeat match goal with
         | |- context [if ?c then _ else _] => destruct c
         | |- context [match predictions f with _ => _ end] =>
             destruct (predictions f)
         end; repeat split.
Qed.

(** A frame with both detections polled while the counter is below 4
    is counted and not captured; the loop goes on. *)
Lemma poll_counts (s : Home) (f : Frame) :
  consistent s ->
  loop_ready s = true ->
  detected f = true ->
  consecutiveDetections s < 4 ->
  consistent (poll s f)
  /\ loop_ready (poll s f) = true
  /\ consecutiveDetections (poll s f) = consecutiveDetections s + 1
  /\ submitted (poll s f) = submitted s.
Proof.
  intros Hs Hr Hd Hlt.
  pose proof Hs as [_ Htim]. rewrite Hr in Htim.
  destruct Htim as (id & Hi & _).
  unfold poll. rewrite Hi. cbn [intervalId interval_of].
  assert (Hfind : find_interval id (intervals s) = Some (interval_of s id)).
  { rewrite Hi. unfold find_interval. cbn. now rewrite Nat.eqb_refl. }
  destruct (tick_fields s id f _ Hs Hfind) as (Hsub & Hcnt & Hcam & _).
  destruct (tick_keeps s id f) as (He & Hw & Hv).
  destruct (commit_fields s (handle s (Tick id f)))
    as (Csub & Ccnt & Ccam & _ & Cv & Ce & Cw).
  assert (Ht : triggers s f = false).
  { unfold triggers. rewrite Hd. cbn [andb]. apply Nat.leb_gt. exact Hlt. }
  rewrite Ht in Hsub, Hcam.
  assert (Hp : exists preds, predictions f = Some preds).
  { unfold detected in Hd. destruct (predictions f); [eauto|discriminate]. }
  destruct Hp as [preds Hp]. rewrite Hp, Hd in Hcnt.
  destruct (loop_ready_true s Hr) as (Le & Lw & _ & Lv).
  split; [now apply step_consistent|]. unfold step.
  split.
  - unfold loop_ready, isClient. rewrite Ce, Cw, Ccam, Cv, He, Hw, Hcam, Hv.
    rewrite Le, Lw, Lv. reflexivity.
  - split; congruence.
Qed.

Lemma polls_count (fs : list Frame) (s : Home) :
  consistent s ->
  loop_ready s = true ->
  Forall (fun f => detected f = true) fs ->
  consecutiveDetections s + length fs <= 4 ->
  consistent (polls s fs)
  /\ loop_ready (polls s fs) = true
  /\ consecutiveDetections (polls s fs) = consecutiveDetections s + length fs
  /\ submitted (polls s fs) = submitted s.
Proof.
  revert s. induction fs as [|f fs IH]; intros s Hs Hr Hall Hle;
    cbn [length] in Hle.
  - split; [exact Hs|]. split; [exact Hr|]. split; [cbn; lia|reflexivity].
  - change (polls s (f :: fs)) with (polls (poll s f) fs).
    inversion Hall as [|? ? Hd Hrest]; subst.
    destruct (poll_counts s f Hs Hr Hd) as (Hs' & Hr' & Hc' & Hsub'); [lia|].
    destruct (IH (poll s f) Hs' Hr' Hrest) as (A & B & C & D); [lia|].
    split; [exact A|]. split; [exact B|]. split; [cbn [length]; lia|congruence].
Qed.

(** With every call ended before the next tick: in a loop whose counter
    is at zero, four frames with both detections are not captured and
    the fifth is. *)
Lemma fifth_frame_is_captured (s : Home) (fs : list Frame) (f : Frame) :
  consistent s ->
  loop_ready s = true ->
  consecutiveDetections s = 0 ->
  Forall (fun f => detected f = true) fs ->
  length fs = 4 ->
  detected f = true ->
  submitted (polls s fs) = submitted s
  /\ submitted (poll (polls s fs) f)
     = (submitted s ++ [base64_of (imageData f)])%list.
Proof.
  intros Hs Hr H0 Hall Hlen Hd.
  destruct (polls_count fs s Hs Hr Hall) as (Hs' & Hr' & Hc' & Hsub'); [lia|].
  split; [exact Hsub'|].
  set (s' := polls s fs) in *.
  pose proof Hs' as [_ Htim]. rewrite Hr' in Htim.
  destruct Htim as (id & Hi & _).
  unfold poll. rewrite Hi. cbn [intervalId interval_of].
  assert (Hfind : find_interval id (intervals s') = Some (interval_of s' id)).
  { rewrite Hi. unfold find_interval. cbn. now rewrite Nat.eqb_refl. }
  destruct (tick_fields s' id f _ Hs' Hfind) as (Hsub & _).
  destruct (commit_fields s' (handle s' (Tick id f))) as (Csub & _).
  unfold step. rewrite Csub, Hsub.
  unfold triggers. rewrite Hd, Hc', H0, Hlen. cbn. now rewrite Hsub'.
Qed.

(** Only a tick touches the counter and the submissions. *)
Lemma handle_other (s : Home) (e : Event) :
  (forall id f, e <> Tick id f) ->
  consecutiveDetections (handle s e) = consecutiveDetections s
  /\ submitted (handle s e) = submitted s.
Proof.
  intros Hne. destruct e as [| id | | | | | id f]; cbn [handle].
  - destruct (inferEngine s); split; reflexivity.
  - destruct (modelWorkerId s); [|destruct (modelLoading s)]; split; reflexivity.
  - destruct (start_button_shown s); split; reflexivity.
  - split; reflexivity.
  - destruct (video_mounted s); split; reflexivity.
  - split; reflexivity.
  - now destruct (Hne id f).
Qed.

(** With every call ended before the next event, the counter never
    stands higher than 4 plus the number of captures submitted. *)
Lemma counter_bound (s : Home) :
  reachable s -> consecutiveDetections s <= 4 + length (submitted s).
Proof.
  intros [es ->].
  assert (H : forall s0, consistent s0 ->
                consecutiveDetections s0 <= 4 + length (submitted s0) ->
                consecutiveDetections (run s0 es)
                <= 4 + length (submitted (run s0 es))).
  { induction es as [|e es IH]; intros s0 Hs Hb; [exact Hb|].
    cbn [run fold_left]. apply IH; [now apply step_consistent|].
    unfold step.
    destruct (commit_fields s0 (handle s0 e)) as (-> & -> & _).
    destruct e as [| id | | | | | id f];
      try (match goal with
           | |- context [handle s0 ?e] =>
               destruct (handle_other s0 e) as [-> ->];
               [intros; discriminate | exact Hb]
           end).
    cbn [handle].
    destruct (find_interval id (intervals s0)) as [iv|] eqn:Hfind; [|exact Hb].
    destruct (tick_fields s0 id f iv Hs Hfind) as (Hsub & Hcnt & _).
    cbn [handle] in Hsub, Hcnt. rewrite Hfind in Hsub, Hcnt.
    rewrite Hsub, Hcnt. unfold triggers.
    destruct (predictions f); [|destruct (detected f); cbn [andb]].
    - destruct (detected f); cbn [andb]; [|lia].
      destruct (4 <=? consecutiveDetections s0) eqn:E.
      + rewrite length_app. cbn [length]. lia.
      + apply Nat.leb_gt in E. lia.
    - destruct (4 <=? consecutiveDetections s0);
        [rewrite length_app; cbn [length]|]; lia.
    - exact Hb. }
  apply H; [apply initial_consistent|cbn; lia].
Qed.

(** C2, as stated, fails both ways.  Of the frames good, good, bad,
    good, three in four hold both detections and nothing is captured;
    of six bad frames followed by five good ones, fewer than half hold
    both detections and the last one is captured. *)
Lemma majority_is_not_the_rule :
  (majority [good; good; bad; good] = true
   /\ captured [good; good; bad; good] = false)
  /\ (majority [bad; bad; bad; bad; bad; bad; good; good; good; good; good] = false
      /\ captured [bad; bad; bad; bad; bad; bad; good; good; good; good; good] = true).
Proof. repeat apply conj; vm_compute; reflexivity. Qed.

(** C4, at the failing run.  Five good frames are captured, the action
    answers with an error object, the user starts the camera again:
    the counter still stands at 5, and the one good frame polled next
    is captured and submitted, a streak of one. *)
Theorem restart_captures_first_frame :
  isCameraActive (run initial restart) = true
  /\ submitted (run initial restart) = ["Z29vZA=="]
  /\ run initial second_capture = step (run initial restart) (Tick 5 good)
  /\ submitted (run initial second_capture) = ["Z29vZA=="; "Z29vZA=="].
Proof. repeat apply conj; vm_compute; reflexivity. Qed.

(** C8, at the failing run.  After the first capture the counter stands
    at 5; it is not reset when the camera is started again, and the
    next good frame takes it to 6. *)
Theorem counter_exceeds_five :
  reachable (run initial second_capture)
  /\ consecutiveDetections (run initial restart) = 5
  /\ consecutiveDetections (run initial second_capture) = 6.
Proof.
  split; [exists second_capture; reflexivity|]. split; vm_compute; reflexivity.
Qed.

(** C9, as stated, fails on its last clause.  The capture branch ran
    and deactivated the camera; once the user has started the camera
    again the loop submits a second capture. *)
Lemma second_capture_is_submitted :
  submitted (run initial first_capture) = ["Z29vZA=="]
  /\ isCameraActive (run initial first_capture) = false
  /\ second_capture = (first_capture ++ [ActionData; StartAnalysis; Tick 5 good])%list
  /\ submitted (run initial second_capture) = ["Z29vZA=="; "Z29vZA=="].
Proof. repeat apply conj; vm_compute; reflexivity. Qed.

(** C9, amended.  In every reachable state the browser holds at most
    one interval of the loop, of period 500 ms, and none when the guard
    of the detection effect (engine, model worker, camera active, video
    ready) fails.  A tick that submits a capture turns the camera off
    and leaves no interval.  While the camera is off and Start Analysis
    is not clicked, the loop submits nothing more. *)
Theorem timer_discipline (s : Home) :
  reachable s ->
  (length (intervals s) <= 1
   /\ Forall (fun iv => period iv = 500%Z) (intervals s))
  /\ (loop_ready s = false -> intervals s = [])
  /\ (forall id f,
        submitted (step s (Tick id f)) <> submitted s ->
        isCameraActive (step s (Tick id f)) = false
        /\ intervals (step s (Tick id f)) = [])
  /\ (isCameraActive s = false ->
      forall es, ~ In StartAnalysis es -> submitted (run s es) = submitted s).
Proof.
  intros Hre. apply reachable_consistent in Hre.
  pose proof Hre as [_ Htim].
  split; [|split; [|split]].
  - destruct (loop_ready s).
    + destruct Htim as (id & -> & _). split; [cbn; lia|].
      constructor; [reflexivity|constructor].
    + destruct Htim as (-> & _). split; [cbn; lia|constructor].
  - intros Hr. rewrite Hr in Htim. tauto.
  - intros id f Hneq.
    pose proof (step_consistent s (Tick id f) Hre) as Hs'.
    destruct (commit_fields s (handle s (Tick id f))) as (Csub & _ & Ccam & _).
    assert (Hoff : isCameraActive (step s (Tick id f)) = false).
    { unfold step in *. rewrite Ccam. rewrite Csub in Hneq.
      destruct (find_interval id (intervals s)) as [iv|] eqn:Hfind.
      - destruct (tick_fields s id f iv Hre Hfind) as (Hsub & _ & Hcam & _).
        rewrite Hcam. rewrite Hsub in Hneq.
        destruct (triggers s f); [reflexivity|congruence].
      - cbn [handle] in Hneq. rewrite Hfind in Hneq. congruence. }
    split; [exact Hoff|].
    destruct Hs' as [_ Htim'].
    assert (Hr : loop_ready (step s (Tick id f)) = false).
    { unfold loop_ready. rewrite Hoff. now rewrite andb_false_r. }
    rewrite Hr in Htim'. tauto.
  - intros Hoff es. revert s Hre Htim Hoff.
    induction es as [|e es IH]; intros s Hre _ Hoff Hin; [reflexivity|].
    cbn [run fold_left].
    destruct (camera_off_step s e Hre Hoff) as [Hoff' Hsub'].
    { intros ->. apply Hin. now left. }
    pose proof (step_consistent s e Hre) as Hre'.
    rewrite <- Hsub'. apply IH; auto.
    + now destruct Hre'.
    + intros H. apply Hin. now right.
Qed.

Lemma timer_discipline_witness :
  let s := run initial first_capture in
  (length (intervals s) <= 1
   /\ Forall (fun iv => period iv = 500%Z) (intervals s))
  /\ (loop_ready s = false -> intervals s = [])
  /\ (forall id f,
        submitted (step s (Tick id f)) <> submitted s ->
        isCameraActive (step s (Tick id f)) = false
        /\ intervals (step s (Tick id f)) = [])
  /\ (isCameraActive s = false ->
      forall es, ~ In StartAnalysis es -> submitted (run s es) = submitted s).
Proof.
  apply (timer_discipline (run initial first_capture)).
  exists first_capture. reflexivity.
Defined.

End DetectFacts.

(* ================================================================== *)
(** ** The action: its calls, its answers, the client IP *)

Module ActionMore.
Import Js Action Claims More ActionFacts.

(** X1. Whatever the services answer, the calls of the action are a
    first part of the sequence: fetch, upload to [split-images], upload
    to [pint-images], location lookup, insert into [scores].  Nothing
    is uploaded before the API was called, and nothing is inserted
    before both uploads and the lookup. *)
Theorem action_calls_in_order (w : World) (req : Request) :
  in_order (snd (action w req)) = true.
Proof.
  branches; reflexivity.
Qed.

(** X2. An object returned by the action never says [success: true]:
    it is the 400 object of the missing G or a 500 object with the
    message [Failed to process image]. *)
Theorem action_returned_object (w : World) (req : Request)
  (success : bool) (error message : string) (status : Z) :
  fst (action w req) = Ok (Returned success error message status) ->
  success = false
  /\ ((status = 400%Z /\ error = "No G detected"
       /\ message = "No G pattern detected")
      \/ (status = 500%Z /\ message = "Failed to process image")).
Proof.
  revert success error message status.
  branches; cbn [fst]; intros success error message status H;
    try discriminate H; injection H as <- <- <- <-; auto.
Qed.

Lemma falsy_output_no_predictions (result outputs : value) :
  get result "outputs" = Ok outputs ->
  truthy (opt_get0 outputs) = false ->
  pintPredictions result = Ok (VArr []).
Proof.
  intros Ho Ht. unfold pintPredictions. rewrite Ho.
  assert (Hu : opt_get (opt_get0 outputs) "pint results" = VUndefined).
  { destruct (opt_get0 outputs) as [| |b|q|s|l|fs]; simpl in Ht;
      try reflexivity; discriminate. }
  rewrite Hu. reflexivity.
Qed.

(** X3. When the parsed body has no truthy [outputs[0]] (no
    [outputs], an empty list, a null first entry), the action answers
    with the 400 object of the missing G and calls nothing but the API;
    the guard of line 93 does not come into play. *)
Theorem action_without_first_output (w : World) (req : Request)
  (response : Response) (result outputs : value) :
  fetch w api_url (ROBOFLOW_API_KEY w) (image req) = Ok response ->
  ok response = true ->
  json response = Ok result ->
  get result "outputs" = Ok outputs ->
  truthy (opt_get0 outputs) = false ->
  action w req
  = (Ok (Returned false "No G detected" "No G pattern detected" 400),
     [EvFetch api_url (ROBOFLOW_API_KEY w) (image req)]).
Proof.
  intros Hf Hok Hj Ho Ht.
  unfold_action. rewrite Hf. cbn beta iota. rewrite Hok. cbn.
  rewrite Hj, (falsy_output_no_predictions _ _ Ho Ht). reflexivity.
Qed.

(** X4. On a redirect, the last call is the insert, and the session id
    in the [Set-Cookie] header of the response is the [session_id]
    stored in the inserted row, the UUID drawn at the start; the row
    carries the generated user name and the time stamp. *)
Theorem action_session (w : World) (req : Request)
  (location : string) (hs : list (string * string)) (tr : list event) :
  action w req = (Ok (Redirect location hs), tr) ->
  exists before row,
    tr = (before ++ [EvInsert "scores" row])%list
    /\ session_id row = randomUUID w
    /\ username row = generateBeerUsername w
    /\ created_at row = toISOString w
    /\ hs = [("Set-Cookie",
              "split-g-session=" ++ session_id row
              ++ "; Path=/; Max-Age=31536000; SameSite=Lax")].
Proof.
  intros H. branches_in H. injection H as <- <- <-.
  eexists [_; _; _; _], _. split; [reflexivity|]. repeat split.
Qed.

(** X5. A row that the action inserts goes to [scores] and holds what
    the services gave: the two URLs that [uploadImage] returned for the
    uploads made, the value of [calculateScore], and the four fields
    read from the answer of [getLocationData]. *)
Theorem action_row_is_what_services_gave (w : World) (req : Request)
  (table : string) (row : ScoreRow) :
  In (EvInsert table row) (snd (action w req)) ->
  table = "scores"
  /\ exists splitImage pintImage out0 place,
      In (EvUpload splitImage "split-images") (snd (action w req))
      /\ In (EvUpload pintImage "pint-images") (snd (action w req))
      /\ uploadImage w splitImage "split-images" = Ok (split_image_url row)
      /\ uploadImage w pintImage "pint-images" = Ok (pint_image_url row)
      /\ calculateScore w out0 = Ok (split_score row)
      /\ getLocationData w (clientIP req) = Ok place
      /\ get place "city" = Ok (city row)
      /\ get place "region" = Ok (region row)
      /\ get place "country" = Ok (country row)
      /\ get place "country_code" = Ok (country_code row).
Proof.
  branches; cbn [snd app In]; intros H;
    repeat (destruct H as [H|H]; try discriminate H); try contradiction;
    injection H as <- <-; (split; [reflexivity|]);
    do 4 eexists; cbn [In];
    repeat (split; [solve [eauto 7] |]); eauto.
Qed.

(** X6. The action uploads an image only after the API answered ok, a
    G was found among the predictions, and [calculateScore] returned on
    the first output; the uploaded value is truthy. *)
Theorem uploads_need_G_and_score (w : World) (req : Request)
  (img : value) (bucket : string) :
  In (EvUpload img bucket) (snd (action w req)) ->
  exists response result predictions outputs out0 score,
    fetch w api_url (ROBOFLOW_API_KEY w) (image req) = Ok response
    /\ ok response = true
    /\ json response = Ok result
    /\ pintPredictions result = Ok predictions
    /\ hasG predictions = Ok true
    /\ get result "outputs" = Ok outputs
    /\ get0 outputs = Ok out0
    /\ calculateScore w out0 = Ok score
    /\ truthy img = true.
Proof.
  branches; cbn [snd app In]; intros H;
    repeat (destruct H as [H|H]; try discriminate H); try contradiction;
    injection H as <- <-;
    repeat match goal with
           | Hn : negb _ = false |- _ => apply negb_false_iff in Hn
           | Hn : _ || _ = false |- _ => apply orb_false_iff in Hn; destruct Hn
           end; subst;
    do 6 eexists; repeat (split; [reflexivity || eassumption|]); assumption.
Qed.

Lemma action_returned_object_witness :
  false = false
  /\ ((400 = 400 /\ "No G detected" = "No G detected"
       /\ "No G pattern detected" = "No G pattern detected")
      \/ (400 = 500 /\ "No G pattern detected" = "Failed to process image"))%Z.
Proof.
  apply (action_returned_object
           (Sample.world (Ok (Sample.answer_200 Sample.body_without_G)) Sample.stored)
           Sample.request false "No G detected" "No G pattern detected" 400).
  vm_compute. reflexivity.
Defined.

Lemma action_without_first_output_witness :
  action (Sample.world (Ok (Sample.answer_200 (VObj []))) Sample.stored)
         Sample.request
  = (Ok (Returned false "No G detected" "No G pattern detected" 400),
     [EvFetch api_url (Some "rf_key") (Some "aW1hZ2U=")]).
Proof.
  apply (action_without_first_output
           (Sample.world (Ok (Sample.answer_200 (VObj []))) Sample.stored)
           Sample.request (Sample.answer_200 (VObj [])) (VObj []) VUndefined);
    reflexivity.
Defined.

Lemma action_session_witness :
  exists before row,
    [EvFetch api_url (Some "rf_key") (Some "aW1hZ2U=");
     EvUpload (VStr "c3BsaXQ=") "split-images";
     EvUpload (VStr "cGludA==") "pint-images";
     EvLocate "203.0.113.7";
     EvInsert "scores" stored_row]
    = (before ++ [EvInsert "scores" row])%list
    /\ session_id row = "3f0c6f0e-0000-4000-8000-000000000001"
    /\ username row = "HoppyStout42"
    /\ created_at row = "2025-03-01T12:00:00.000Z"
    /\ [session_cookie "3f0c6f0e-0000-4000-8000-000000000001"]
       = [("Set-Cookie",
           "split-g-session=" ++ session_id row
           ++ "; Path=/; Max-Age=31536000; SameSite=Lax")].
Proof.
  apply (action_session
           (Sample.world (Ok (Sample.answer_200 Sample.body)) Sample.stored)
           Sample.request "/score/17"
           [session_cookie "3f0c6f0e-0000-4000-8000-000000000001"]).
  vm_compute. reflexivity.
Defined.

Lemma action_row_is_what_services_gave_witness :
  let w := Sample.world (Ok (Sample.answer_200 Sample.body)) Sample.stored in
  "scores" = "scores"
  /\ exists splitImage pintImage out0 place,
      In (EvUpload splitImage "split-images") (snd (action w Sample.request))
      /\ In (EvUpload pintImage "pint-images") (snd (action w Sample.request))
      /\ uploadImage w splitImage "split-images" = Ok (split_image_url stored_row)
      /\ uploadImage w pintImage "pint-images" = Ok (pint_image_url stored_row)
      /\ calculateScore w out0 = Ok (split_score stored_row)
      /\ getLocationData w (clientIP Sample.request) = Ok place
      /\ get place "city" = Ok (city stored_row)
      /\ get place "region" = Ok (region stored_row)
      /\ get place "country" = Ok (country stored_row)
      /\ get place "country_code" = Ok (country_code stored_row).
Proof.
  apply (action_row_is_what_services_gave
           (Sample.world (Ok (Sample.answer_200 Sample.body)) Sample.stored)
           Sample.request "scores" stored_row).
  vm_compute. do 4 right. left. reflexivity.
Defined.

Lemma uploads_need_G_and_score_witness :
  let w := Sample.world (Ok (Sample.answer_200 Sample.body)) Sample.stored in
  exists response result predictions outputs out0 score,
    fetch w api_url (ROBOFLOW_API_KEY w) (image Sample.request) = Ok response
    /\ ok response = true
    /\ json response = Ok result
    /\ pintPredictions result = Ok predictions
    /\ hasG predictions = Ok true
    /\ get result "outputs" = Ok outputs
    /\ get0 outputs = Ok out0
    /\ calculateScore w out0 = Ok score
    /\ truthy (VStr "c3BsaXQ=") = true.
Proof.
  apply (uploads_need_G_and_score
           (Sample.world (Ok (Sample.answer_200 Sample.body)) Sample.stored)
           Sample.request (VStr "c3BsaXQ=") "split-images").
  vm_compute. right. left. reflexivity.
Defined.

Lemma or_str_filled (a b : option string) :
  (exists s, b = Some s /\ s <> "") ->
  exists s, or_str a b = Some s /\ s <> "".
Proof.
  intros Hb. unfold or_str. destruct a as [s|]; [|exact Hb].
  destruct (s =? "") eqn:E; [exact Hb|].
  exists s. split; [reflexivity|]. now apply String.eqb_neq.
Qed.

(** X7. The client IP handed to [getLocationData] is never the empty
    string: empty headers are skipped and [unknown] closes the chain. *)
Theorem clientIP_not_empty (req : Request) : clientIP req <> "".
Proof.
  unfold clientIP.
  match goal with
  | |- match ?x with _ => _ end <> _ =>
      assert (H : exists s, x = Some s /\ s <> "")
  end.
  { repeat apply or_str_filled. exists "unknown". split; [reflexivity|discriminate]. }
  destruct H as (s & -> & Hs). exact Hs.
Qed.

(** X8. A non-empty [Fly-Client-IP] header, in whatever case, is the
    client IP, whatever the other headers say. *)
Theorem clientIP_fly_first (req : Request) (ip : string) :
  headers_get req "fly-client-ip" = Some ip ->
  ip <> "" ->
  clientIP req = ip.
Proof.
  intros H Hne. unfold clientIP.
  change (headers_get req "Fly-Client-IP") with (headers_get req "fly-client-ip").
  rewrite H. unfold or_str at 1.
  apply String.eqb_neq in Hne. now rewrite Hne.
Qed.

Lemma or_str_skip (a b : option string) :
  a = None \/ a = Some "" -> or_str a b = b.
Proof. intros [-> | ->]; reflexivity. Qed.

Lemma before_comma_no_comma (s : string) : has_comma (before_comma s) = false.
Proof.
  induction s as [|c s IH]; [reflexivity|]. cbn [before_comma].
  destruct (Ascii.eqb c ",") eqn:E; [reflexivity|].
  cbn [has_comma]. now rewrite E, IH.
Qed.

Lemma trim_start_no_comma (s : string) :
  has_comma s = false -> has_comma (trim_start s) = false.
Proof.
  induction s as [|c s IH]; [auto|]. cbn [trim_start has_comma].
  intros H. apply orb_false_iff in H. destruct H as [Hc Hs].
  destruct (is_space c); [auto|]. cbn [has_comma]. now rewrite Hc, Hs.
Qed.

Lemma trim_end_no_comma (s : string) :
  has_comma s = false -> has_comma (trim_end s) = false.
Proof.
  induction s as [|c s IH]; [auto|]. cbn [trim_end has_comma].
  intros H. apply orb_false_iff in H. destruct H as [Hc Hs].
  specialize (IH Hs).
  destruct (trim_end s) as [|d k].
  - destruct (is_space c); [reflexivity|]. cbn [has_comma]. now rewrite Hc.
  - cbn [has_comma] in *. now rewrite Hc, IH.
Qed.

Lemma trim_start_starts (s : string) : starts_with_space (trim_start s) = false.
Proof.
  induction s as [|c s IH]; [reflexivity|]. cbn [trim_start].
  destruct (is_space c) eqn:E; [exact IH|]. cbn. exact E.
Qed.

Lemma trim_end_ends (s : string) : ends_with_space (trim_end s) = false.
Proof.
  induction s as [|c s IH]; [reflexivity|]. cbn [trim_end].
  destruct (trim_end s) as [|d k] eqn:E.
  - destruct (is_space c) eqn:Ec; [reflexivity|]. cbn. exact Ec.
  - cbn [ends_with_space] in *. exact IH.
Qed.

Lemma trim_end_starts (s : string) :
  starts_with_space s = false -> starts_with_space (trim_end s) = false.
Proof.
  destruct s as [|c s]; [auto|]. cbn [trim_end starts_with_space].
  intros Hc. destruct (trim_end s); [rewrite Hc|]; cbn; auto.
Qed.

(** X9. Without a Fly header, the client IP is the first entry of
    [x-forwarded-for], trimmed, when that is not empty: it holds no
    comma and neither starts nor ends with white space. *)
Theorem clientIP_forwarded (req : Request) (s : string) :
  headers_get req "fly-client-ip" = None
  \/ headers_get req "fly-client-ip" = Some "" ->
  headers_get req "x-forwarded-for" = Some s ->
  trim (before_comma s) <> "" ->
  clientIP req = trim (before_comma s)
  /\ has_comma (clientIP req) = false
  /\ starts_with_space (clientIP req) = false
  /\ ends_with_space (clientIP req) = false.
Proof.
  intros Hfly Hx Hne.
  assert (E : clientIP req = trim (before_comma s)).
  { unfold clientIP.
    change (headers_get req "Fly-Client-IP") with (headers_get req "fly-client-ip").
    rewrite Hx. rewrite !(or_str_skip _ _ Hfly).
    unfold or_str at 1. apply String.eqb_neq in Hne. now rewrite Hne. }
  rewrite E. split; [reflexivity|]. unfold trim. split; [|split].
  - apply trim_end_no_comma, trim_start_no_comma, before_comma_no_comma.
  - apply trim_end_starts, trim_start_starts.
  - apply trim_end_ends.
Qed.

Lemma clientIP_forwarded_witness :
  clientIP forwarded_request = trim (before_comma " 198.51.100.4 , 10.0.0.1")
  /\ has_comma (clientIP forwarded_request) = false
  /\ starts_with_space (clientIP forwarded_request) = false
  /\ ends_with_space (clientIP forwarded_request) = false.
Proof.
  apply (clientIP_forwarded forwarded_request " 198.51.100.4 , 10.0.0.1").
  - left. reflexivity.
  - reflexivity.
  - vm_compute. discriminate.
Defined.

Lemma clientIP_fly_first_witness : clientIP Sample.request = "203.0.113.7".
Proof.
  apply (clientIP_fly_first Sample.request "203.0.113.7").
  - reflexivity.
  - discriminate.
Defined.

End ActionMore.

(* ================================================================== *)
(** ** The loop: captured images, budget of captures, latches *)

Module DetectMore.
Import Detect Scenario More DetectFacts.

Local Open Scope nat_scope.

Lemma length_append (a b : string) :
  String.length (a ++ b) = String.length a + String.length b.
Proof. induction a as [|c a IH]; cbn; [reflexivity|now rewrite IH]. Qed.

Lemma drop_word_run (w rest : string) :
  all_word w = true ->
  drop_word (w ++ rest) = drop_word rest.
Proof.
  induction w as [|c w IH]; cbn [all_word append drop_word]; [reflexivity|].
  intros H. apply andb_true_iff in H. destruct H as [Hc Hw].
  rewrite Hc. auto.
Qed.

Lemma strips_image_prefix (w payload : string) :
  all_word w = true ->
  w <> "" ->
  base64_of ("data:image/" ++ w ++ ";base64," ++ payload) = payload.
Proof.
  intros Hw Hne. unfold base64_of.
  change (strip_prefix "data:image/" ("data:image/" ++ w ++ ";base64," ++ payload))
    with (Some (w ++ ";base64," ++ payload)).
  cbn beta iota zeta.
  rewrite (drop_word_run w _ Hw).
  change (drop_word (";base64," ++ payload)) with (";base64," ++ payload).
  set (tail := ";base64," ++ payload).
  assert (Hlt : (String.length tail <? String.length (w ++ tail)) = true).
  { apply Nat.ltb_lt. rewrite length_append.
    destruct w; [congruence|cbn; lia]. }
  rewrite Hlt. reflexivity.
Qed.

(** X10. The prefix of an image data URL is removed whole: for a
    non-empty subtype of word characters, what is left of
    [data:image/<subtype>;base64,<payload>] is the payload. *)
Theorem base64_of_data_url (w payload : string) :
  all_word w = true ->
  w <> "" ->
  base64_of ("data:image/" ++ w ++ ";base64," ++ payload) = payload.
Proof. exact (strips_image_prefix w payload). Qed.

Lemma base64_of_data_url_witness :
  base64_of ("data:image/" ++ "png" ++ ";base64," ++ "iVBORw0KGgo=") = "iVBORw0KGgo=".
Proof.
  apply (base64_of_data_url "png" "iVBORw0KGgo=").
  - reflexivity.
  - discriminate.
Defined.

(** X11. When the subtype of the data URL runs into a character that
    is neither a word character nor the semicolon (as in
    [image/svg+xml]), nothing is removed: the data URL is passed on
    as it is. *)
Theorem base64_of_other_subtype (w rest : string) (c : ascii) :
  all_word w = true ->
  is_word c = false ->
  c <> ";"%char ->
  base64_of ("data:image/" ++ w ++ String c rest)
  = "data:image/" ++ w ++ String c rest.
Proof.
  intros Hw Hc Hsemi. unfold base64_of.
  change (strip_prefix "data:image/" ("data:image/" ++ w ++ String c rest))
    with (Some (w ++ String c rest)).
  cbn beta iota zeta.
  rewrite (drop_word_run w _ Hw). cbn [drop_word]. rewrite Hc.
  destruct (_ <? _); [|reflexivity].
  cbn [strip_prefix].
  destruct (Ascii.eqb ";" c) eqn:E; [|reflexivity].
  apply Ascii.eqb_eq in E. congruence.
Qed.

Lemma base64_of_other_subtype_witness :
  base64_of ("data:image/" ++ "svg" ++ String "+" "xml;base64,PHN2Zz4=")
  = "data:image/" ++ "svg" ++ String "+" "xml;base64,PHN2Zz4=".
Proof.
  apply (base64_of_other_subtype "svg" "xml;base64,PHN2Zz4=" "+").
  - reflexivity.
  - reflexivity.
  - discriminate.
Defined.

(** X12. A chosen file that reads as an image data URL is submitted as
    its bare payload, and not submitted at all when the payload is
    empty. *)
Theorem upload_submits_payload {File : Type} (f : File)
  (readAsDataURL : File -> option string) (w payload : string) :
  all_word w = true ->
  w <> "" ->
  readAsDataURL f = Some ("data:image/" ++ w ++ ";base64," ++ payload) ->
  Upload.handleFileChange (Some f) readAsDataURL
  = if String.eqb payload "" then None else Some payload.
Proof.
  intros Hw Hne Hr. unfold Upload.handleFileChange, Upload.onloadend.
  rewrite Hr. cbn zeta. now rewrite (strips_image_prefix w payload Hw Hne).
Qed.

Lemma upload_submits_payload_witness :
  Upload.handleFileChange (Some tt)
    (fun _ : unit => Some ("data:image/" ++ "png" ++ ";base64," ++ "iVBORw0KGgo="))
  = if String.eqb "iVBORw0KGgo=" "" then None else Some "iVBORw0KGgo=".
Proof.
  apply (upload_submits_payload tt
           (fun _ : unit => Some ("data:image/" ++ "png" ++ ";base64," ++ "iVBORw0KGgo="))
           "png" "iVBORw0KGgo=").
  - reflexivity.
  - discriminate.
  - reflexivity.
Defined.

(** Camera activity and submissions, counted together. *)
Lemma step_budget (s : Home) (e : Event) :
  consistent s ->
  length (submitted (step s e)) + (if isCameraActive (step s e) then 1 else 0)
  <= length (submitted s) + (if isCameraActive s then 1 else 0)
     + (if is_start e then 1 else 0).
Proof.
  intros Hs. unfold step.
  destruct (commit_fields s (handle s e)) as (-> & _ & -> & _).
  destruct e as [| id | | | | | id f]; cbn [handle is_start].
  - destruct (inferEngine s); cbn; lia.
  - destruct (modelWorkerId s); [|destruct (modelLoading s)]; cbn; lia.
  - destruct (start_button_shown s); cbn; destruct (isCameraActive s); lia.
  - cbn. destruct (isCameraActive s); lia.
  - destruct (video_mounted s); cbn; lia.
  - cbn. lia.
  - destruct (find_interval id (intervals s)) as [iv|] eqn:Hfind; [|lia].
    destruct (tick_fields s id f iv Hs Hfind) as (Hsub & _ & Hcam & _).
    cbn [handle] in Hsub, Hcam. rewrite Hfind in Hsub, Hcam.
    rewrite Hsub, Hcam.
    destruct (active_interval s id iv Hs Hfind) as (_ & Hr & _).
    destruct (loop_ready_true s Hr) as (_ & _ & -> & _).
    destruct (triggers s f); cbn [negb]; [rewrite length_app; cbn|]; lia.
Qed.

(** X15. In every run of the page, the loop has submitted at most as
    many captures as Start Analysis was clicked. *)
Theorem captures_bounded_by_clicks (es : list Event) :
  length (submitted (run initial es)) <= clicks es.
Proof.
  assert (H : forall s, consistent s ->
              length (submitted (run s es))
              + (if isCameraActive (run s es) then 1 else 0)
              <= length (submitted s) + (if isCameraActive s then 1 else 0)
                 + clicks es).
  { induction es as [|e es IH]; intros s Hs; [cbn; lia|].
    cbn [run fold_left]. fold (run (step s e) es).
    specialize (IH (step s e) (step_consistent s e Hs)).
    pose proof (step_budget s e Hs) as Hb.
    unfold clicks in *. cbn [filter].
    destruct (is_start e); cbn [length]; lia. }
  specialize (H initial initial_consistent). cbn in H.
  destruct (isCameraActive (run initial es)); lia.
Qed.




Lemma handle_video_ready (s : Home) (e : Event) :
  isVideoReady s = true -> isVideoReady (handle s e) = true.
Proof.
  intros H. destruct e as [| id | | | | | id f].
  - cbn [handle]. destruct (inferEngine s); auto.
  - cbn [handle].
    destruct (modelWorkerId s); [|destruct (modelLoading s)]; auto.
  - cbn [handle]. destruct (start_button_shown s); auto.
  - exact H.
  - cbn [handle]. destruct (video_mounted s); auto.
  - exact H.
  - destruct (tick_keeps s id f) as (_ & _ & E). now rewrite E.
Qed.

(** X18. [isVideoReady] is never set back.  So with engine and model
    loaded and the video once ready, a click on Start Analysis
    registers the interval at once, and its [detectFrame] closes over
    the counter as it was left. *)
Theorem restart_polls_at_once (s : Home) :
  reachable s ->
  inferEngine s = true ->
  worker_truthy (modelWorkerId s) = true ->
  isVideoReady s = true ->
  (forall es, isVideoReady (run s es) = true)
  /\ (start_button_shown s = true ->
      exists id,
        intervals (step s StartAnalysis)
        = [{| intervalId := id; period := 500;
              seen_detections := consecutiveDetections s;
              seen_worker := modelWorkerId s |}]).
Proof.
  intros Hre He Hw Hv. split.
  - intros es. clear Hre He Hw. revert s Hv.
    induction es as [|e es IH]; intros s Hv; [exact Hv|].
    cbn [run fold_left]. apply IH. unfold step.
    destruct (commit_fields s (handle s e)) as (_ & _ & _ & _ & -> & _).
    now apply handle_video_ready.
  - intros Hb. apply reachable_consistent in Hre.
    pose proof (step_consistent s StartAnalysis Hre) as [_ Htim].
    assert (Hr : loop_ready (step s StartAnalysis) = true).
    { unfold step, loop_ready, isClient.
      destruct (commit_fields s (handle s StartAnalysis))
        as (_ & _ & -> & _ & -> & -> & ->).
      cbn [handle]. rewrite Hb. cbn. now rewrite He, Hw, Hv. }
    rewrite Hr in Htim. destruct Htim as (id & Hi & _).
    exists id. rewrite Hi. unfold interval_of, step.
    destruct (commit_fields s (handle s StartAnalysis))
      as (_ & -> & _ & _ & _ & _ & ->).
    cbn [handle]. rewrite Hb. reflexivity.
Qed.

(** X19. A camera error turns the camera off and leaves no interval;
    it touches neither the counter nor the submissions. *)
Theorem camera_error_stops_loop (s : Home) :
  reachable s ->
  isCameraActive (step s CameraError) = false
  /\ intervals (step s CameraError) = []
  /\ consecutiveDetections (step s CameraError) = consecutiveDetections s
  /\ submitted (step s CameraError) = submitted s.
Proof.
  intros Hre. apply reachable_consistent in Hre.
  pose proof (step_consistent s CameraError Hre) as [_ Htim].
  unfold step in *.
  destruct (commit_fields s (handle s CameraError))
    as (Hsub & Hcnt & Hcam & _).
  assert (Hoff : isCameraActive (commit s (handle s CameraError)) = false)
    by (rewrite Hcam; reflexivity).
  assert (Hr : loop_ready (commit s (handle s CameraError)) = false).
  { unfold loop_ready. rewrite Hoff. now rewrite andb_false_r. }
  rewrite Hr in Htim. destruct Htim as [Hi _].
  repeat apply conj; auto.
Qed.


Lemma restart_polls_at_once_witness :
  let s := run initial (first_capture ++ [ActionData]) in
  (forall es, isVideoReady (run s es) = true)
  /\ (start_button_shown s = true ->
      exists id,
        intervals (step s StartAnalysis)
        = [{| intervalId := id; period := 500;
              seen_detections := consecutiveDetections s;
              seen_worker := modelWorkerId s |}]).
Proof.
  apply (restart_polls_at_once (run initial (first_capture ++ [ActionData]))).
  - exists (first_capture ++ [ActionData])%list. reflexivity.
  - vm_compute. reflexivity.
  - vm_compute. reflexivity.
  - vm_compute. reflexivity.
Defined.

Lemma camera_error_stops_loop_witness :
  isCameraActive (step ready CameraError) = false
  /\ intervals (step ready CameraError) = []
  /\ consecutiveDetections (step ready CameraError) = consecutiveDetections ready
  /\ submitted (step ready CameraError) = submitted ready.
Proof.
  apply (camera_error_stops_loop ready).
  exists setup. reflexivity.
Defined.

End DetectMore.

(* ================================================================== *)
(** ** The score page: proofs *)

Module ScoreFacts.
Import Score.

Local Open Scope nat_scope.

Lemma ge_monotone (x y : number) (t : Q) :
  le x y -> ge x t = true -> ge y t = true.
Proof.
  destruct x as [| |p|], y as [| |q|]; cbn; try tauto; try discriminate.
  intros Hpq Ht. apply Qle_bool_iff. apply Qle_bool_iff in Ht.
  now apply Qle_trans with p.
Qed.

Lemma ge_weaker (x : number) (t u : Q) :
  (u <= t)%Q -> ge x t = true -> ge x u = true.
Proof.
  destruct x as [| |p|]; cbn; auto.
  intros Hut Ht. apply Qle_bool_iff. apply Qle_bool_iff in Ht.
  now apply Qle_trans with t.
Qed.

Lemma rank_cases (x : number) :
  rank (getScoreMessage x)
  = if ge x lit_4_70 then 3
    else if ge x lit_3_75 then 2
    else if ge x lit_3_0 then 1
    else 0.
Proof.
  unfold getScoreMessage.
  destruct (ge x lit_4_70); [vm_compute; reflexivity|].
  destruct (ge x lit_3_75); [vm_compute; reflexivity|].
  destruct (ge x lit_3_0); vm_compute; reflexivity.
Qed.

(** X20. The message of the score page never ranks lower for a higher
    score. *)
Theorem score_message_monotone (x y : number) :
  le x y -> rank (getScoreMessage x) <= rank (getScoreMessage y).
Proof.
  intros Hle. rewrite !rank_cases.
  pose proof (ge_monotone x y lit_4_70 Hle) as H1.
  pose proof (ge_monotone x y lit_3_75 Hle) as H2.
  pose proof (ge_monotone x y lit_3_0 Hle) as H3.
  destruct (ge x lit_4_70); [rewrite H1 by reflexivity; lia|].
  destruct (ge x lit_3_75).
  { rewrite H2 by reflexivity. destruct (ge y lit_4_70); lia. }
  destruct (ge x lit_3_0).
  { rewrite H3 by reflexivity.
    destruct (ge y lit_4_70), (ge y lit_3_75); lia. }
  lia.
Qed.

Lemma score_message_monotone_witness :
  rank (getScoreMessage (Finite (7 # 2)%Q))
  <= rank (getScoreMessage (Finite (19 # 4)%Q)).
Proof.
  apply (score_message_monotone (Finite (7 # 2)%Q) (Finite (19 # 4)%Q)).
  vm_compute. discriminate.
Defined.

(** X21. The message tells the band of the score: the top message
    exactly from 4.70, the two upper ones exactly from 3.75, any but
    the lowest exactly from 3.0; NaN gets the lowest. *)
Theorem score_message_bands (x : number) :
  (rank (getScoreMessage x) = 3 <-> ge x lit_4_70 = true)
  /\ (2 <= rank (getScoreMessage x) <-> ge x lit_3_75 = true)
  /\ (1 <= rank (getScoreMessage x) <-> ge x lit_3_0 = true).
Proof.
  rewrite rank_cases.
  assert (A : (lit_3_75 <= lit_4_70)%Q) by (vm_compute; discriminate).
  assert (B : (lit_3_0 <= lit_3_75)%Q) by (vm_compute; discriminate).
  pose proof (ge_weaker x _ _ A) as HA.
  pose proof (ge_weaker x _ _ B) as HB.
  destruct (ge x lit_4_70).
  { rewrite HA in * by reflexivity. rewrite HB by reflexivity.
    repeat split; intros; try reflexivity; lia. }
  destruct (ge x lit_3_75).
  { rewrite HB by reflexivity.
    repeat split; intros; try reflexivity; try lia; discriminate. }
  destruct (ge x lit_3_0);
    repeat split; intros; try reflexivity; try lia; discriminate.
Qed.

End ScoreFacts.

(* ================================================================== *)
(** ** The loop with calls in flight: proofs *)

Module OverlapFacts.
Import Detect Scenario More DetectFacts DetectMore Overlap.
Local Open Scope nat_scope.

(** [detectFrame] is its guard followed by the rest. *)
Lemma detectFrame_split (iv : Interval) (f : Frame) (s : Home) :
  detectFrame iv f s = if admitted iv s then settle iv f s else s.
Proof.
  unfold detectFrame, admitted, settle.
  destruct (worker_truthy (seen_worker iv)), (video_mounted s); reflexivity.
Qed.

(** A tick handled to its end is a call that fires and settles with
    nothing in between. *)
Lemma atomic_tick (p : Page) (id : nat) (iv : Interval) (f : Frame) :
  find_interval id (intervals (home p)) = Some iv ->
  admitted iv (home p) = true ->
  home (step p (Atomic (Tick id f)))
  = home (step (step p (Fire id)) (Settle (length (pending p)) f)).
Proof.
  intros E Ha. cbn [step home]. unfold Detect.step. cbn [handle].
  rewrite E, detectFrame_split, Ha. cbn [home pending].
  rewrite nth_error_app2 by lia. rewrite Nat.sub_diag. reflexivity.
Qed.

Lemma settle_timers (iv : Interval) (f : Frame) (s : Home) :
  intervals (settle iv f s) = intervals s /\ cleanup (settle iv f s) = cleanup s.
Proof.
  unfold settle.
  repeat match goal with
         | |- context [if ?c then _ else _] => destruct c
         | |- context [match predictions f with _ => _ end] =>
             destruct (predictions f)
         end; split; reflexivity.
Qed.

Lemma settle_overlay (iv : Interval) (f : Frame) (s : Home) :
  (isSubmitting s = true -> isCameraActive s = false) ->
  isSubmitting (settle iv f s) = true -> isCameraActive (settle iv f s) = false.
Proof.
  intros Hs. unfold settle, canvas_mounted, video_mounted.
  destruct (predictions f) as [preds|]; [|exact Hs].
  destruct (has_class "glass" preds && has_class "G" preds).
  - destruct (4 <=? seen_detections iv).
    + destruct (isSubmitting s) eqn:Hsub, (isCameraActive s) eqn:Hcam;
        cbn; auto.
      specialize (Hs eq_refl). discriminate.
    + destruct (1 <=? seen_detections iv); exact Hs.
  - destruct (negb (has_class "glass" preds)); [exact Hs|].
    destruct (negb (has_class "G" preds)); exact Hs.
Qed.

Lemma page_step_consistent (p : Page) (e : Event) :
  consistent (home p) -> consistent (home (step p e)).
Proof.
  intros Hs. destruct e as [e0|id|k f]; cbn [step].
  - now apply DetectFacts.step_consistent.
  - destruct (find_interval id (intervals (home p))) as [iv|]; [|exact Hs].
    destruct (admitted iv (home p)); exact Hs.
  - destruct (nth_error (pending p) k) as [iv|]; [|exact Hs].
    cbn [home]. destruct (settle_timers iv f (home p)) as [Hi Hc].
    apply commit_consistent; auto.
    apply settle_overlay. now destruct Hs.
Qed.

Lemma page_run_consistent (es : list Event) (p : Page) :
  consistent (home p) -> consistent (home (run p es)).
Proof.
  revert p. induction es as [|e es IH]; intros p Hp; [exact Hp|].
  cbn [run fold_left]. apply IH. now apply page_step_consistent.
Qed.

Lemma page_reachable_consistent (p : Page) : reachable p -> consistent (home p).
Proof.
  intros [es ->]. apply page_run_consistent. exact initial_consistent.
Qed.

(** Events handled to their end leave the waiting calls alone and move
    the page as [Detect.step] does. *)
Lemma run_atomic (es : list Detect.Event) (p : Page) :
  home (run p (map Atomic es)) = Detect.run (home p) es
  /\ pending (run p (map Atomic es)) = pending p.
Proof.
  revert p. induction es as [|e es IH]; intros p; [split; reflexivity|].
  cbn [map run fold_left].
  destruct (IH (step p (Atomic e))) as [H1 H2].
  unfold run in *. rewrite H1, H2. split; reflexivity.
Qed.

Lemma polls_home (fs : list Frame) (p : Page) :
  home (polls p fs) = Detect.polls (home p) fs.
Proof.
  revert p. induction fs as [|f fs IH]; intros p; [reflexivity|].
  cbn [polls Detect.polls fold_left].
  change (fold_left poll fs (poll p f)) with (polls (poll p f) fs).
  change (fold_left Detect.poll fs (Detect.poll (home p) f))
    with (Detect.polls (Detect.poll (home p) f) fs).
  rewrite IH. f_equal. unfold poll, Detect.poll.
  destruct (intervals (home p)); reflexivity.
Qed.

(** What a call does when it ends, read off its closure. *)
Lemma settle_fields (iv : Interval) (f : Frame) (s : Home) :
  submitted (settle iv f s)
  = (if detected f && (4 <=? seen_detections iv) && video_mounted s
     then submitted s ++ [base64_of (imageData f)]
     else submitted s)%list
  /\ consecutiveDetections (settle iv f s)
     = match predictions f with
       | None => consecutiveDetections s
       | Some _ => if detected f then consecutiveDetections s + 1 else 0
       end.
Proof.
  unfold settle, detected.
  change (canvas_mounted s) with (video_mounted s).
  destruct (predictions f) as [preds|]; [|split; reflexivity].
  destruct (has_class "glass" preds), (has_class "G" preds); cbn [andb negb];
    try (split; reflexivity).
  destruct (4 <=? seen_detections iv); cbn [andb].
  - destruct (video_mounted s); split; reflexivity.
  - destruct (1 <=? seen_detections iv); split; reflexivity.
Qed.

Lemma commit_feedback (old new : Home) :
  feedbackMessage (commit old new) = feedbackMessage new.
Proof.
  unfold commit, detection_effect, run_cleanup, model_effect.
  destruct (negb (inferEngine new) || modelLoading new);
    match goal with |- context [same_deps ?a ?b] => destruct (same_deps a b) end;
    try reflexivity;
    match goal with |- context [cleanup ?a] => destruct (cleanup a) end;
    match goal with |- context [loop_ready ?a] => destruct (loop_ready a) end;
    reflexivity.
Qed.

(** C2, amended.  The loop decides by a counter of consecutive
    detections, not by a majority.  A call of [detectFrame] captures
    and submits its frame exactly when the frame holds both a glass and
    a G, the value of [consecutiveDetections] that the call closed over
    is 4 or more, and the video is still mounted when the call ends.  A
    frame with both detections adds one to the counter, a frame that
    misses either sets it to 0, a call that throws leaves it.  The
    interval registered in a render has closed over the counter of that
    render, so a call that ends before anything else happens decides by
    the counter as it stood before its frame. *)
Theorem capture_by_closed_counter
  (p : Page) (k : nat) (call : Interval) (f : Frame) :
  reachable p ->
  nth_error (pending p) k = Some call ->
  (submitted (home (step p (Settle k f)))
   = (if detected f && (4 <=? seen_detections call) && video_mounted (home p)
      then submitted (home p) ++ [base64_of (imageData f)]
      else submitted (home p))%list)
  /\ (consecutiveDetections (home (step p (Settle k f)))
      = match predictions f with
        | None => consecutiveDetections (home p)
        | Some _ =>
            if detected f then consecutiveDetections (home p) + 1 else 0
        end)
  /\ (forall id iv g,
        find_interval id (intervals (home p)) = Some iv ->
        seen_detections iv = consecutiveDetections (home p)
        /\ submitted (home (step p (Atomic (Tick id g))))
           = (if detected g && (4 <=? consecutiveDetections (home p))
              then submitted (home p) ++ [base64_of (imageData g)]
              else submitted (home p))%list).
Proof.
  intros Hre Hk. apply page_reachable_consistent in Hre.
  split; [|split].
  - cbn [step]. rewrite Hk. cbn [home].
    destruct (commit_fields (home p) (settle call f (home p))) as (-> & _).
    apply settle_fields.
  - cbn [step]. rewrite Hk. cbn [home].
    destruct (commit_fields (home p) (settle call f (home p))) as (_ & -> & _).
    apply settle_fields.
  - intros id iv g Hfind.
    destruct (active_interval (home p) id iv Hre Hfind) as (-> & _ & _).
    split; [reflexivity|].
    destruct (tick_fields (home p) id g _ Hre Hfind) as (Hsub & _).
    cbn [step home]. unfold Detect.step.
    destruct (commit_fields (home p) (handle (home p) (Tick id g))) as (-> & _).
    exact Hsub.
Qed.

Lemma capture_by_closed_counter_witness :
  (submitted (home (step at_four (Settle 0 good)))
   = (if detected good && (4 <=? seen_detections (interval_of (home at_four) 4))
         && video_mounted (home at_four)
      then submitted (home at_four) ++ [base64_of (imageData good)]
      else submitted (home at_four))%list)
  /\ (consecutiveDetections (home (step at_four (Settle 0 good)))
      = match predictions good with
        | None => consecutiveDetections (home at_four)
        | Some _ =>
            if detected good then consecutiveDetections (home at_four) + 1 else 0
        end)
  /\ (forall id iv g,
        find_interval id (intervals (home at_four)) = Some iv ->
        seen_detections iv = consecutiveDetections (home at_four)
        /\ submitted (home (step at_four (Atomic (Tick id g))))
           = (if detected g && (4 <=? consecutiveDetections (home at_four))
              then submitted (home at_four) ++ [base64_of (imageData g)]
              else submitted (home at_four))%list).
Proof.
  apply (capture_by_closed_counter at_four 0 (interval_of (home at_four) 4) good).
  - exists (map Atomic (setup ++ [Tick 0 good; Tick 1 good; Tick 2 good; Tick 3 good])
            ++ [Fire 4])%list.
    reflexivity.
  - vm_compute. reflexivity.
Defined.

(** The call of [at_four] takes the capture branch. *)
Example at_four_captures :
  consecutiveDetections (home at_four) = 4
  /\ submitted (home at_four) = []
  /\ submitted (home (step at_four (Settle 0 good))) = ["Z29vZA=="].
Proof. repeat apply conj; vm_compute; reflexivity. Qed.

(** Calls that overlap are each counted and none captures: after seven
    the counter stands at 7 with nothing submitted. *)
Example stale_calls_count :
  consecutiveDetections (home stale) = 7
  /\ submitted (home stale) = []
  /\ feedbackMessage (home stale) = "Keep the glass centered...".
Proof. repeat apply conj; vm_compute; reflexivity. Qed.

(** X13. In a run in which every call of [detectFrame] ends before the
    next event, so that no two calls overlap, the counter never stands
    higher than 4 plus the number of captures submitted. *)
Theorem counter_bound_without_overlap (es : list Detect.Event) :
  pending (run initial (map Atomic es)) = []
  /\ consecutiveDetections (home (run initial (map Atomic es)))
     <= 4 + length (submitted (home (run initial (map Atomic es)))).
Proof.
  destruct (run_atomic es initial) as [-> ->].
  split; [reflexivity|].
  apply counter_bound. exists es. reflexivity.
Qed.

(** X14. From a running loop whose counter is at zero, with frames
    polled one after the other, each call ended before the next tick
    and no other call ending in between: four frames with both
    detections are not captured and the fifth is. *)
Theorem fifth_frame_without_overlap (p : Page) (fs : list Frame) (f : Frame) :
  reachable p ->
  loop_ready (home p) = true ->
  consecutiveDetections (home p) = 0 ->
  Forall (fun f => detected f = true) fs ->
  length fs = 4 ->
  detected f = true ->
  submitted (home (polls p fs)) = submitted (home p)
  /\ submitted (home (poll (polls p fs) f))
     = (submitted (home p) ++ [base64_of (imageData f)])%list.
Proof.
  intros Hre Hr H0 Hall Hlen Hd. apply page_reachable_consistent in Hre.
  change (poll (polls p fs) f) with (polls (polls p fs) [f]).
  rewrite !polls_home.
  exact (fifth_frame_is_captured (home p) fs f Hre Hr H0 Hall Hlen Hd).
Qed.

Lemma fifth_frame_without_overlap_witness :
  submitted (home (polls (run initial (map Atomic setup)) [good; good; good; good]))
  = submitted (home (run initial (map Atomic setup)))
  /\ submitted (home (poll (polls (run initial (map Atomic setup))
                                  [good; good; good; good]) good))
     = (submitted (home (run initial (map Atomic setup)))
        ++ [base64_of (imageData good)])%list.
Proof.
  apply (fifth_frame_without_overlap (run initial (map Atomic setup))
           [good; good; good; good] good).
  - exists (map Atomic setup). reflexivity.
  - vm_compute. reflexivity.
  - vm_compute. reflexivity.
  - repeat constructor.
  - reflexivity.
  - vm_compute. reflexivity.
Defined.

(** X17. The feedback after a call of [detectFrame] that got its
    predictions: a missing glass is reported first, then a missing G;
    with both, the message follows the value of the counter that the
    call closed over (0: keep centered, 1 to 3: hold still, 4 or more:
    processing).  For a call that ends before anything else happens
    that value is the counter as it stood before the frame. *)
Theorem feedback_by_closed_counter
  (p : Page) (k : nat) (call : Interval) (f : Frame) (preds : list Prediction) :
  reachable p ->
  nth_error (pending p) k = Some call ->
  predictions f = Some preds ->
  feedbackMessage (home (step p (Settle k f)))
  = (if negb (has_class "glass" preds) then "Show your pint glass"
     else if negb (has_class "G" preds)
     then "Make sure the G pattern is visible"
     else if 4 <=? seen_detections call then "Perfect! Processing your pour..."
     else if 1 <=? seen_detections call then "Hold still..."
     else "Keep the glass centered...")
  /\ (forall id iv,
        find_interval id (intervals (home p)) = Some iv ->
        feedbackMessage (home (step p (Atomic (Tick id f))))
        = if negb (has_class "glass" preds) then "Show your pint glass"
          else if negb (has_class "G" preds)
          then "Make sure the G pattern is visible"
          else if 4 <=? consecutiveDetections (home p)
          then "Perfect! Processing your pour..."
          else if 1 <=? consecutiveDetections (home p) then "Hold still..."
          else "Keep the glass centered...").
Proof.
  intros Hre Hk Hp. split.
  - cbn [step]. rewrite Hk. cbn [home]. rewrite commit_feedback.
    unfold settle. rewrite Hp. cbn zeta.
    destruct (has_class "glass" preds), (has_class "G" preds); cbn [andb negb];
      try reflexivity.
    destruct (4 <=? seen_detections call).
    + destruct (video_mounted (home p) && canvas_mounted (home p)); reflexivity.
    + destruct (1 <=? seen_detections call); reflexivity.
  - intros id iv Hfind. apply page_reachable_consistent in Hre.
    cbn [step home]. unfold Detect.step. rewrite commit_feedback.
    pose proof Hre as [_ Htim].
    destruct (active_interval (home p) id iv Hre Hfind) as (-> & Hr & Hv).
    destruct (loop_ready_true (home p) Hr) as (_ & Hw & Hc & _).
    assert (Hsub : isSubmitting (home p) = false).
    { unfold video_mounted in Hv.
      destruct (isSubmitting (home p)); [discriminate|reflexivity]. }
    cbn [handle]. rewrite Hfind.
    unfold detectFrame, canvas_mounted.
    cbn [interval_of seen_worker seen_detections].
    rewrite Hw. unfold video_mounted. rewrite Hsub, Hc, Hp. cbn [negb orb andb].
    destruct (has_class "glass" preds), (has_class "G" preds); cbn [andb negb];
      try reflexivity.
    destruct (4 <=? consecutiveDetections (home p)); [reflexivity|].
    destruct (1 <=? consecutiveDetections (home p)); reflexivity.
Qed.

Lemma feedback_by_closed_counter_witness :
  feedbackMessage (home (step at_four (Settle 0 good)))
  = (if negb (has_class "glass" [ {| class := "glass" |}; {| class := "G" |} ])
     then "Show your pint glass"
     else if negb (has_class "G" [ {| class := "glass" |}; {| class := "G" |} ])
     then "Make sure the G pattern is visible"
     else if 4 <=? seen_detections (interval_of (home at_four) 4)
     then "Perfect! Processing your pour..."
     else if 1 <=? seen_detections (interval_of (home at_four) 4)
     then "Hold still..."
     else "Keep the glass centered...")
  /\ (forall id iv,
        find_interval id (intervals (home at_four)) = Some iv ->
        feedbackMessage (home (step at_four (Atomic (Tick id good))))
        = if negb (has_class "glass" [ {| class := "glass" |}; {| class := "G" |} ])
          then "Show your pint glass"
          else if negb (has_class "G" [ {| class := "glass" |}; {| class := "G" |} ])
          then "Make sure the G pattern is visible"
          else if 4 <=? consecutiveDetections (home at_four)
          then "Perfect! Processing your pour..."
          else if 1 <=? consecutiveDetections (home at_four) then "Hold still..."
          else "Keep the glass centered...").
Proof.
  apply (feedback_by_closed_counter at_four 0 (interval_of (home at_four) 4) good
           [ {| class := "glass" |}; {| class := "G" |} ]).
  - exists (map Atomic (setup ++ [Tick 0 good; Tick 1 good; Tick 2 good; Tick 3 good])
            ++ [Fire 4])%list.
    reflexivity.
  - vm_compute. reflexivity.
  - reflexivity.
Defined.

Lemma settle_budget (iv : Interval) (f : Frame) (s : Home) :
  length (submitted (settle iv f s))
  + (if isCameraActive (settle iv f s) then 1 else 0)
  <= length (submitted s) + (if isCameraActive s then 1 else 0).
Proof.
  unfold settle. change (canvas_mounted s) with (video_mounted s).
  unfold video_mounted.
  destruct (predictions f) as [preds|]; [|lia].
  destruct (has_class "glass" preds && has_class "G" preds).
  - destruct (4 <=? seen_detections iv).
    + destruct (isSubmitting s) eqn:Es, (isCameraActive s) eqn:Ec;
        cbn [negb andb];
        cbn [submitted isCameraActive submit setIsCameraActive
             setIsSubmitting setIsProcessing setFeedbackMessage
             setConsecutiveDetections];
        rewrite ?Ec, ?length_app; cbn [length]; lia.
    + destruct (1 <=? seen_detections iv); cbn; lia.
  - destruct (negb (has_class "glass" preds)); [cbn; lia|].
    destruct (negb (has_class "G" preds)); cbn; lia.
Qed.

Lemma page_step_budget (p : Page) (e : Event) :
  consistent (home p) ->
  length (submitted (home (step p e)))
  + (if isCameraActive (home (step p e)) then 1 else 0)
  <= length (submitted (home p)) + (if isCameraActive (home p) then 1 else 0)
     + (if is_click e then 1 else 0).
Proof.
  intros Hs. destruct e as [e0|id|k f]; cbn [step].
  - cbn [home]. pose proof (step_budget (home p) e0 Hs) as H.
    destruct e0; cbn [is_click is_start] in *; lia.
  - destruct (find_interval id (intervals (home p))) as [iv|]; [|cbn; lia].
    destruct (admitted iv (home p)); cbn; lia.
  - destruct (nth_error (pending p) k) as [iv|]; [|cbn; lia].
    cbn [home is_click].
    destruct (commit_fields (home p) (settle iv f (home p))) as (-> & _ & -> & _).
    pose proof (settle_budget iv f (home p)). lia.
Qed.

(** Also with calls in flight, the loop has submitted at most as many
    captures as Start Analysis was clicked: a call that ends with the
    camera off finds no video and submits nothing. *)
Lemma page_captures_bounded_by_clicks (es : list Event) :
  length (submitted (home (run initial es)))
  <= length (filter is_click es).
Proof.
  assert (H : forall p, consistent (home p) ->
              length (submitted (home (run p es)))
              + (if isCameraActive (home (run p es)) then 1 else 0)
              <= length (submitted (home p))
                 + (if isCameraActive (home p) then 1 else 0)
                 + length (filter is_click es)).
  { induction es as [|e es IH]; intros p Hp; [cbn; lia|].
    cbn [run fold_left]. fold (run (step p e) es).
    specialize (IH (step p e) (page_step_consistent p e Hp)).
    pose proof (page_step_budget p e Hp) as Hb.
    cbn [filter]. destruct (is_click e); cbn [length]; lia. }
  specialize (H initial initial_consistent). cbn in H.
  destruct (isCameraActive (home (run initial es))); lia.
Qed.

End OverlapFacts.
